(** * Price-axis label rendering: canvas helpers and the label geometry engine

    A shallow embedding of [src/helpers/canvas-helpers.ts] and of the
    [PriceAxisViewRenderer] class of unity-lightweight-charts.

    JavaScript numbers are taken as exact rationals ([Q]); the values that the
    code obtains from [Math.round], [Math.floor] and [Math.ceil] are integers
    and are typed [Z].  Calls on the 2D context are recorded, in program
    order, as a list of [CanvasOp]; a small interpreter gives the effect of
    these calls on the context's drawing state. *)

From Stdlib Require Import ZArith QArith Qround Bool List String Lia Lqa.
Import ListNotations.

Open Scope Q_scope.

(** ** JavaScript numeric primitives *)

Definition Math_floor (x : Q) : Z := Qfloor x.

Definition Math_ceil (x : Q) : Z := Qceiling x.

(** [Math.round] rounds to the nearest integer, ties towards +infinity. *)
Definition Math_round (x : Q) : Z := Qfloor (x + (1 # 2)).

Definition Math_max (a b : Z) : Z := Z.max a b.

(** The [%] operator on integers: the result takes the sign of the dividend. *)
Definition js_rem (a b : Z) : Z := Z.rem a b.

(** A string is truthy when it is not empty. *)
Definition truthy (s : string) : bool := negb (String.eqb s "").

(** [s || dflt] on strings. *)
Definition or_else (s dflt : string) : string := if truthy s then s else dflt.

(** An optional string argument is truthy when present and not empty. *)
Definition truthy_opt (s : option string) : bool :=
  match s with
  | Some c => truthy c
  | None => false
  end.

(** ** The 2D drawing context *)

Inductive FillStyle : Type :=
| Color (c : string)
| LinearGradient (x0 y0 x1 y1 : Q) (stops : list (Q * string)).

(** Calls and property assignments on a [CanvasRenderingContext2D].  The
    angles of [Arc] are counted in full turns (one turn is [Math.PI * 2]). *)
Inductive CanvasOp : Type :=
| Save
| Restore
| SetGlobalCompositeOperation (mode : string)
| SetFillStyle (style : FillStyle)
| SetStrokeStyle (c : string)
| SetLineWidth (w : Q)
| SetFont (f : string)
| SetTextAlign (a : string)
| SetTextBaseline (b : string)
| CreateLinearGradient (x0 y0 x1 y1 : Q)
| FillRect (x y w h : Q)
| BeginPath
| ClosePath
| MoveTo (x y : Q)
| LineTo (x y : Q)
| ArcTo (x1 y1 x2 y2 r : Q)
| Arc (x y r startTurns endTurns : Q) (counterclockwise : bool)
| RoundRect (x y w h : Q) (radii : list Q)
| Fill
| Stroke
| FillText (t : string) (x y : Q).

(** What the helpers need to know about the context they draw on: whether
    it offers the native [roundRect] method. *)
Record CanvasRenderingContext2D : Type := {
  roundRect : bool
}.

(** The style properties that [save] pushes and [restore] pops. *)
Record DrawingState : Type := {
  fillStyle : FillStyle;
  strokeStyle : string;
  lineWidth : Q;
  globalCompositeOperation : string;
  ctxFont : string;
  textAlign : string;
  textBaseline : string
}.

Record SurfaceState : Type := {
  current : DrawingState;
  saved : list DrawingState
}.

Definition set_current (f : DrawingState -> DrawingState) (s : SurfaceState)
  : SurfaceState :=
  {| current := f (current s); saved := saved s |}.

(** Effect of one call on the drawing state.  [restore] on an empty stack
    does nothing; path and pixel operations leave the styles alone. *)
Definition exec (op : CanvasOp) (s : SurfaceState) : SurfaceState :=
  match op with
  | Save => {| current := current s; saved := current s :: saved s |}
  | Restore =>
      match saved s with
      | [] => s
      | top :: rest => {| current := top; saved := rest |}
      end
  | SetGlobalCompositeOperation m =>
      set_current (fun d =>
        {| fillStyle := fillStyle d; strokeStyle := strokeStyle d;
           lineWidth := lineWidth d; globalCompositeOperation := m;
           ctxFont := ctxFont d; textAlign := textAlign d;
           textBaseline := textBaseline d |}) s
  | SetFillStyle f =>
      set_current (fun d =>
        {| fillStyle := f; strokeStyle := strokeStyle d;
           lineWidth := lineWidth d;
           globalCompositeOperation := globalCompositeOperation d;
           ctxFont := ctxFont d; textAlign := textAlign d;
           textBaseline := textBaseline d |}) s
  | SetStrokeStyle c =>
      set_current (fun d =>
        {| fillStyle := fillStyle d; strokeStyle := c;
           lineWidth := lineWidth d;
           globalCompositeOperation := globalCompositeOperation d;
           ctxFont := ctxFont d; textAlign := textAlign d;
           textBaseline := textBaseline d |}) s
  | SetLineWidth w =>
      set_current (fun d =>
        {| fillStyle := fillStyle d; strokeStyle := strokeStyle d;
           lineWidth := w;
           globalCompositeOperation := globalCompositeOperation d;
           ctxFont := ctxFont d; textAlign := textAlign d;
           textBaseline := textBaseline d |}) s
  | SetFont f =>
      set_current (fun d =>
        {| fillStyle := fillStyle d; strokeStyle := strokeStyle d;
           lineWidth := lineWidth d;
           globalCompositeOperation := globalCompositeOperation d;
           ctxFont := f; textAlign := textAlign d;
           textBaseline := textBaseline d |}) s
  | SetTextAlign a =>
      set_current (fun d =>
        {| fillStyle := fillStyle d; strokeStyle := strokeStyle d;
           lineWidth := lineWidth d;
           globalCompositeOperation := globalCompositeOperation d;
           ctxFont := ctxFont d; textAlign := a;
           textBaseline := textBaseline d |}) s
  | SetTextBaseline b =>
      set_current (fun d =>
        {| fillStyle := fillStyle d; strokeStyle := strokeStyle d;
           lineWidth := lineWidth d;
           globalCompositeOperation := globalCompositeOperation d;
           ctxFont := ctxFont d; textAlign := textAlign d;
           textBaseline := b |}) s
  | _ => s
  end.

Definition run (ops : list CanvasOp) (s : SurfaceState) : SurfaceState :=
  fold_left (fun st op => exec op st) ops s.

(** Recognisers used to count calls in a trace. *)
Definition is_Fill (op : CanvasOp) : bool :=
  match op with Fill => true | _ => false end.

Definition is_Stroke (op : CanvasOp) : bool :=
  match op with Stroke => true | _ => false end.

Definition is_ClosePath (op : CanvasOp) : bool :=
  match op with ClosePath => true | _ => false end.

Definition is_scope_op (op : CanvasOp) : bool :=
  match op with Save | Restore => true | _ => false end.

Definition count (p : CanvasOp -> bool) (ops : list CanvasOp) : nat :=
  List.length (filter p ops).

(** ** canvas-helpers.ts *)

Definition fillRectInnerBorder (x y width height borderWidth : Q)
  : list CanvasOp :=
  [ FillRect (x + borderWidth) y (width - borderWidth * 2) borderWidth;
    FillRect (x + borderWidth) (y + height - borderWidth)
             (width - borderWidth * 2) borderWidth;
    FillRect x y borderWidth height;
    FillRect (x + width - borderWidth) y borderWidth height ].

Definition clearRect (x y w h : Q) (clearColor : string) : list CanvasOp :=
  [ Save;
    SetGlobalCompositeOperation "copy";
    SetFillStyle (Color clearColor);
    FillRect x y w h;
    Restore ].

(** [LeftTopRightTopRightBottomLeftBottomRadii]: four radii, in the order
    left-top, right-top, right-bottom, left-bottom. *)
Definition Radii : Type := list Q.

Definition radius_at (radii : Radii) (i : nat) : Q := nth i radii 0.

Definition changeBorderRadius (borderRadius : Radii) (offset : Q) : Radii :=
  map (fun x => if Qeq_bool x 0 then x else x + offset) borderRadius.

Definition drawRoundRect (ctx : CanvasRenderingContext2D)
  (x y w h : Q) (radii : Radii) : list CanvasOp :=
  [BeginPath] ++
  if roundRect ctx then [RoundRect x y w h radii]
  else
    [LineTo (x + w - radius_at radii 1) y] ++
    (if negb (Qeq_bool (radius_at radii 1) 0)
     then [ArcTo (x + w) y (x + w) (y + radius_at radii 1) (radius_at radii 1)]
     else []) ++
    [LineTo (x + w) (y + h - radius_at radii 2)] ++
    (if negb (Qeq_bool (radius_at radii 2) 0)
     then [ArcTo (x + w) (y + h) (x + w - radius_at radii 2) (y + h)
                 (radius_at radii 2)]
     else []) ++
    [LineTo (x + radius_at radii 3) (y + h)] ++
    (if negb (Qeq_bool (radius_at radii 3) 0)
     then [ArcTo x (y + h) x (y + h - radius_at radii 3) (radius_at radii 3)]
     else []) ++
    [LineTo x (y + radius_at radii 0)] ++
    (if negb (Qeq_bool (radius_at radii 0) 0)
     then [ArcTo x y (x + radius_at radii 0) y (radius_at radii 0)]
     else []).

Definition ADD_BUTTON_SIZE : Q := 21.
Definition DRAG_HANDLE_SIZE : Q := 12.

Definition drawCloseButton (x y side : Q) (backgroundColor textColor : string)
  : list CanvasOp :=
  let shift : Q := 4 in
  [ SetFillStyle (Color backgroundColor);
    FillRect x y side side;
    BeginPath;
    MoveTo (x + shift) (y + shift);
    LineTo (x + side - shift) (y + side - shift);
    MoveTo (x + side - shift) (y + shift);
    LineTo (x + shift) (y + side - shift);
    SetStrokeStyle (or_else textColor "#FFFFFF");
    SetLineWidth (3 # 2);
    Stroke ].

Definition drawDragHandle (x y side : Q) (backgroundColor textColor : string)
  : list CanvasOp :=
  let shift : Q := 4 in
  let radius : Q := 1 in
  let height := side - shift * 2 in
  let coords : list (Q * Q) :=
    [ (0, 0); (0, height / 2); (0, height);
      (4, 0); (4, height / 2); (4, height) ] in
  [ SetFillStyle (Color backgroundColor); BeginPath ] ++
  flat_map (fun coord =>
    [ MoveTo (x + shift + fst coord) (y + shift + snd coord);
      Arc (x + shift + fst coord) (y + shift + snd coord) radius 0 1 true ])
    coords ++
  [ SetFillStyle (Color textColor);
    Fill;
    SetStrokeStyle (or_else textColor "#FFFFFF");
    SetLineWidth 1;
    Stroke ].

(** [!borderWidth || !borderColor || borderColor === backgroundColor] *)
Definition noBorder (backgroundColor : string) (borderWidth : Q)
  (borderColor : string) : bool :=
  Qeq_bool borderWidth 0 || negb (truthy borderColor)
  || String.eqb borderColor backgroundColor.

Definition drawRoundRectWithBorder (ctx : CanvasRenderingContext2D)
  (left top width height : Q) (backgroundColor : string) (borderWidth : Q)
  (outerBorderRadius : Radii) (borderColor textColor : string)
  (draggable closeButton : bool) (iconColor : option string)
  : list CanvasOp :=
  [Save] ++
  if noBorder backgroundColor borderWidth borderColor then
    drawRoundRect ctx left top width height outerBorderRadius ++
    [ SetFillStyle (Color backgroundColor); Fill; Restore ]
  else
    let halfBorderWidth := borderWidth / 2 in
    let dragHandleSize := if draggable then DRAG_HANDLE_SIZE else 0 in
    let radii := changeBorderRadius outerBorderRadius (- halfBorderWidth) in
    drawRoundRect ctx (left + halfBorderWidth) (top + halfBorderWidth)
                  (width - borderWidth) (height - borderWidth) radii ++
    (if negb (String.eqb backgroundColor "transparent") then
       let offsetRight :=
         if closeButton then ADD_BUTTON_SIZE + dragHandleSize + 1 else 0 in
       let fixedWidth :=
         if closeButton then width + dragHandleSize else width in
       let innerRadii := changeBorderRadius outerBorderRadius (- borderWidth) in
       drawRoundRect ctx (left + borderWidth - offsetRight) (top + borderWidth)
                     (fixedWidth - borderWidth * 2) (height - borderWidth * 2)
                     innerRadii ++
       [ SetFillStyle (Color backgroundColor); Fill ] ++
       (if draggable then
          drawDragHandle (left + borderWidth - offsetRight) top height
                         backgroundColor textColor
        else []) ++
       (if closeButton then
          drawCloseButton (left + fixedWidth - height - offsetRight) top height
                          backgroundColor textColor
        else [])
     else []) ++
    (if negb (String.eqb borderColor "transparent") then
       [ SetLineWidth borderWidth;
         SetStrokeStyle borderColor;
         ClosePath;
         Stroke ]
     else []) ++
    [Restore].

Definition clearRectWithGradient (x y w h : Q) (topColor bottomColor : string)
  : list CanvasOp :=
  [ Save;
    SetGlobalCompositeOperation "copy";
    CreateLinearGradient 0 0 0 h;
    SetFillStyle (LinearGradient 0 0 0 h [(0, topColor); (1, bottomColor)]);
    FillRect x y w h;
    Restore ].

(** ** price-axis-view-renderer.ts *)

(** The fields of [PriceAxisViewRendererData] that the renderer reads. *)
Record PriceAxisViewRendererData : Type := {
  visible : bool;
  text : string;
  color : string;
  tickVisible : bool;
  moveTextToInvisibleTick : bool;
  separatorVisible : bool;
  borderVisible : bool
}.

Record PriceAxisViewRendererCommonData : Type := {
  background : string;
  coordinate : Q;
  fixedCoordinate : option Q;
  additionalPaddingTop : Q;
  additionalPaddingBottom : Q
}.

Record PriceAxisViewRendererOptions : Type := {
  font : string;
  fontSize : Q;
  paddingTop : Q;
  paddingBottom : Q;
  paddingInner : Q;
  paddingOuter : Q;
  tickLength : Q;
  borderSize : Q;
  paneBackgroundColor : string
}.

(** The text metrics collaborator: both methods receive the context (whose
    font the caller has set) and the text. *)
Record TextWidthCache : Type := {
  measureText : CanvasRenderingContext2D -> string -> Q;
  yMidCorrection : CanvasRenderingContext2D -> string -> Q
}.

Record Size : Type := {
  width : Q;
  height : Q
}.

Record BitmapCoordinatesRenderingScope : Type := {
  context : CanvasRenderingContext2D;
  bitmapSize : Size;
  mediaSize : Size;
  horizontalPixelRatio : Q;
  verticalPixelRatio : Q
}.

(** The rendering target hands its scope to the callbacks of
    [useBitmapCoordinateSpace] and [useMediaCoordinateSpace]. *)
Definition CanvasRenderingTarget2D : Type := BitmapCoordinatesRenderingScope.

(** What [draw] asks of the target: two scoped callbacks, each issuing calls
    on the context. *)
Inductive TargetCall : Type :=
| UseBitmapCoordinateSpace (ops : list CanvasOp)
| UseMediaCoordinateSpace (ops : list CanvasOp).

Inductive Align : Type := AlignLeft | AlignRight.

Module Bitmap.
Record t : Type := {
  yTop : Z;
  yMid : Z;
  yBottom : Z;
  totalWidth : Z;
  totalHeight : Z;
  radius : Q;
  horzBorder : Z;
  xOutside : Q;
  xInside : Q;
  xTick : Q;
  tickHeight : Z;
  right : Q
}.
End Bitmap.

Module Media.
Record t : Type := {
  yTop : Q;
  yBottom : Q;
  xText : Q;
  textMidCorrection : Q
}.
End Media.

Record Geometry : Type := {
  alignRight : bool;
  bitmap : Bitmap.t;
  media : Media.t
}.

Definition CLOSE_BUTTON_SIZE : Z := 16.

Definition ICON_SIZE : Z := 13.

Record PriceAxisViewRenderer : Type := {
  _data : PriceAxisViewRendererData;
  _commonData : PriceAxisViewRendererCommonData;
  _iconColor : option string
}.

Definition setData (this : PriceAxisViewRenderer)
  (data : PriceAxisViewRendererData)
  (commonData : PriceAxisViewRendererCommonData) : PriceAxisViewRenderer :=
  {| _data := data; _commonData := commonData; _iconColor := _iconColor this |}.

(** The [useSecondLine] argument is not read. *)
Definition height_ (this : PriceAxisViewRenderer)
  (rendererOptions : PriceAxisViewRendererOptions) (useSecondLine : bool) : Q :=
  if negb (visible (_data this)) then 0
  else fontSize rendererOptions + paddingTop rendererOptions
       + paddingBottom rendererOptions.

(** *** The locals of [_calculateGeometry] *)

Section Geometry.

Variable this : PriceAxisViewRenderer.
Variable scope : BitmapCoordinatesRenderingScope.
Variable rendererOptions : PriceAxisViewRendererOptions.
Variable textWidthCache : TextWidthCache.
Variable align : Align.
Variable closeButton : bool.

Definition tickSize : Q :=
  if tickVisible (_data this) || negb (moveTextToInvisibleTick (_data this))
  then tickLength rendererOptions else 0.

Definition horzBorder : Q :=
  if separatorVisible (_data this) then borderSize rendererOptions else 0.

Definition paddingTop' : Q :=
  paddingTop rendererOptions + additionalPaddingTop (_commonData this).

Definition paddingBottom' : Q :=
  paddingBottom rendererOptions + additionalPaddingBottom (_commonData this).

Definition textWidth : Z :=
  if truthy_opt (_iconColor this) then ICON_SIZE
  else Math_ceil (measureText textWidthCache (context scope)
                              (text (_data this))).

Definition totalHeight : Q :=
  fontSize rendererOptions + paddingTop' + paddingBottom'.

Definition totalWidth : Q :=
  borderSize rendererOptions + paddingInner rendererOptions
  + paddingOuter rendererOptions + inject_Z textWidth + tickSize
  + (if closeButton then inject_Z CLOSE_BUTTON_SIZE else 0).

Definition tickHeightBitmap : Z :=
  Math_max 1 (Math_floor (verticalPixelRatio scope)).

Definition totalHeightBitmap : Z :=
  let rounded := Math_round (totalHeight * verticalPixelRatio scope) in
  if negb (Z.eqb (js_rem rounded 2) (js_rem tickHeightBitmap 2))
  then (rounded + 1)%Z else rounded.

Definition horzBorderBitmap : Z :=
  if negb (Qle_bool horzBorder 0)
  then Math_max 1 (Math_floor (horzBorder * horizontalPixelRatio scope))
  else 0%Z.

Definition totalWidthBitmap : Z :=
  Math_round (totalWidth * horizontalPixelRatio scope).

Definition tickSizeBitmap : Z :=
  Math_round (tickSize * horizontalPixelRatio scope).

(** [fixedCoordinate ?? coordinate] *)
Definition yMid : Q :=
  match fixedCoordinate (_commonData this) with
  | Some y => y
  | None => coordinate (_commonData this)
  end.

Definition yMidBitmap : Z :=
  (Math_round (yMid * verticalPixelRatio scope)
   - Math_floor (verticalPixelRatio scope * (1 # 2)))%Z.

Definition yTopBitmap : Z :=
  Math_floor (inject_Z yMidBitmap + inject_Z tickHeightBitmap / 2
              - inject_Z totalHeightBitmap / 2).

Definition yBottomBitmap : Z := (yTopBitmap + totalHeightBitmap)%Z.

Definition _calculateGeometry : Geometry :=
  let alignRight :=
    match align with AlignRight => true | AlignLeft => false end in
  let xInside :=
    if alignRight then width (mediaSize scope) - horzBorder
    else horzBorder in
  let xInsideBitmap :=
    if alignRight then width (bitmapSize scope) - inject_Z horzBorderBitmap
    else inject_Z horzBorderBitmap in
  let xOutsideBitmap :=
    if alignRight then xInsideBitmap - inject_Z totalWidthBitmap
    else xInsideBitmap + inject_Z totalWidthBitmap in
  let xTickBitmap :=
    if alignRight then xInsideBitmap - inject_Z tickSizeBitmap
    else xInsideBitmap + inject_Z tickSizeBitmap in
  let xText :=
    if alignRight
    then xInside - tickSize - paddingInner rendererOptions - horzBorder
    else xInside + tickSize + paddingInner rendererOptions in
  {| alignRight := alignRight;
     bitmap :=
       {| Bitmap.yTop := yTopBitmap;
          Bitmap.yMid := yMidBitmap;
          Bitmap.yBottom := yBottomBitmap;
          Bitmap.totalWidth := totalWidthBitmap;
          Bitmap.totalHeight := totalHeightBitmap;
          Bitmap.radius := 2 * horizontalPixelRatio scope;
          Bitmap.horzBorder := horzBorderBitmap;
          Bitmap.xOutside := xOutsideBitmap;
          Bitmap.xInside := xInsideBitmap;
          Bitmap.xTick := xTickBitmap;
          Bitmap.tickHeight := tickHeightBitmap;
          Bitmap.right := width (bitmapSize scope) |};
     media :=
       {| Media.yTop := inject_Z yTopBitmap / verticalPixelRatio scope;
          Media.yBottom := inject_Z yBottomBitmap / verticalPixelRatio scope;
          Media.xText := xText;
          Media.textMidCorrection :=
            yMidCorrection textWidthCache (context scope)
                           (text (_data this)) |} |}.

End Geometry.

(** *** draw *)

Section Draw.

(** The label-body helper that the renderer imports from the helpers
    module under the name [drawRoundRectWithInnerBorder]; [draw] is
    modelled for any helper of that signature. *)
Variable drawRoundRectWithInnerBorder :
  CanvasRenderingContext2D -> Q -> Q -> Q -> Q -> string -> Q -> Radii ->
  string -> string -> bool -> bool -> option string -> list CanvasOp.

Variable this : PriceAxisViewRenderer.
Variable target : CanvasRenderingTarget2D.
Variable rendererOptions : PriceAxisViewRendererOptions.
Variable textWidthCache : TextWidthCache.
Variable align : Align.
Variable draggable : bool.
Variable closeButton : bool.
Variable iconColor : option string.

(** [this._iconColor = iconColor] *)
Definition withIconColor : PriceAxisViewRenderer :=
  {| _data := _data this; _commonData := _commonData this;
     _iconColor := iconColor |}.

Definition drawLabelBody (geom : Geometry)
  (labelBackgroundColor labelBorderColor : string) : list CanvasOp :=
  let ctx := context target in
  let gb := bitmap geom in
  let textColor := color (_data this) in
  if alignRight geom then
    drawRoundRectWithInnerBorder ctx
      (Bitmap.xOutside gb) (inject_Z (Bitmap.yTop gb))
      (inject_Z (Bitmap.totalWidth gb)) (inject_Z (Bitmap.totalHeight gb))
      labelBackgroundColor (inject_Z (Bitmap.horzBorder gb))
      [Bitmap.radius gb; 0; 0; Bitmap.radius gb]
      labelBorderColor textColor draggable closeButton iconColor
  else
    drawRoundRectWithInnerBorder ctx
      (Bitmap.xInside gb) (inject_Z (Bitmap.yTop gb))
      (inject_Z (Bitmap.totalWidth gb)) (inject_Z (Bitmap.totalHeight gb))
      labelBackgroundColor (inject_Z (Bitmap.horzBorder gb))
      [0; Bitmap.radius gb; Bitmap.radius gb; 0]
      labelBorderColor textColor draggable closeButton iconColor.

Definition drawTick (geom : Geometry) : list CanvasOp :=
  let gb := bitmap geom in
  if tickVisible (_data this) then
    [ SetFillStyle (Color (color (_data this)));
      FillRect (Bitmap.xInside gb) (inject_Z (Bitmap.yMid gb))
               (Bitmap.xTick gb - Bitmap.xInside gb)
               (inject_Z (Bitmap.tickHeight gb)) ]
  else [].

Definition drawSeparator (geom : Geometry) : list CanvasOp :=
  let gb := bitmap geom in
  if borderVisible (_data this) then
    [ SetFillStyle (Color (paneBackgroundColor rendererOptions));
      FillRect (if alignRight geom
                then Bitmap.right gb - inject_Z (Bitmap.horzBorder gb)
                else 0)
               (inject_Z (Bitmap.yTop gb))
               (inject_Z (Bitmap.horzBorder gb))
               (inject_Z (Bitmap.yBottom gb) - inject_Z (Bitmap.yTop gb)) ]
  else [].

(** The callback passed to [useBitmapCoordinateSpace]. *)
Definition drawBitmap (geom : Geometry) : list CanvasOp :=
  let backgroundColor := background (_commonData this) in
  [SetFont (font rendererOptions)] ++
  drawLabelBody geom backgroundColor "transparent" ++
  drawTick geom ++
  drawLabelBody geom "transparent" backgroundColor ++
  drawSeparator geom.

(** The callback passed to [useMediaCoordinateSpace]. *)
Definition drawMedia (geometry : Geometry) : list CanvasOp :=
  let gm := media geometry in
  let xOffset :=
    if moveTextToInvisibleTick (_data this) && closeButton
    then Media.xText gm - inject_Z CLOSE_BUTTON_SIZE - ADD_BUTTON_SIZE
    else Media.xText gm in
  let y := (Media.yTop gm + Media.yBottom gm) / 2
           + Media.textMidCorrection gm - 1 in
  if truthy_opt iconColor then
    [ SetFont "13px icomoon";
      SetTextAlign "left";
      SetTextBaseline "middle";
      SetFillStyle (Color (match iconColor with Some c => c | None => "" end));
      FillText "" (xOffset - inject_Z ICON_SIZE) y ]
  else
    [ SetFont (font rendererOptions);
      SetTextAlign (if alignRight geometry then "right" else "left");
      SetTextBaseline "middle";
      SetFillStyle (Color (color (_data this)));
      FillText (text (_data this)) xOffset y ].

(** [draw] returns the renderer (whose [_iconColor] it may have set) and
    the calls it made on the target. *)
Definition draw : PriceAxisViewRenderer * list TargetCall :=
  if negb (visible (_data this))
     || Nat.eqb (String.length (text (_data this))) 0
  then (this, [])
  else
    let geom :=
      _calculateGeometry withIconColor target rendererOptions
                         textWidthCache align closeButton in
    (withIconColor,
     [ UseBitmapCoordinateSpace (drawBitmap geom);
       UseMediaCoordinateSpace (drawMedia geom) ]).

End Draw.

(** ** custom-price-line-pane-view.ts *)

(** The line renderer data that the pane view keeps and updates in place. *)
Module HorizontalLine.
Record t : Type := {
  visible : bool;
  y : Q;
  color : string;
  lineWidth : Z;
  lineStyle : Z;
  externalId : option string
}.
End HorizontalLine.

(** The fields of the price line's options that the pane view reads. *)
Module PriceLineOptions.
Record t : Type := {
  lineVisible : bool;
  color : string;
  lineWidth : Z;
  lineStyle : Z;
  id : option string
}.
End PriceLineOptions.

(** [_updateImpl] of [CustomPriceLinePaneView]: [seriesVisible] is
    [this._series.visible()], [lineOptions] is [this.priceLine.options()],
    [yCoord] is [this.priceLine.yCoord()] ([None] for [null]) and [data] is
    [this._lineRendererData] before the call; the result is that record
    after the call. *)
Definition _updateImpl (seriesVisible : bool)
  (lineOptions : PriceLineOptions.t) (yCoord : option Q)
  (data : HorizontalLine.t) : HorizontalLine.t :=
  let data :=
    {| HorizontalLine.visible := false;
       HorizontalLine.y := HorizontalLine.y data;
       HorizontalLine.color := HorizontalLine.color data;
       HorizontalLine.lineWidth := HorizontalLine.lineWidth data;
       HorizontalLine.lineStyle := HorizontalLine.lineStyle data;
       HorizontalLine.externalId := HorizontalLine.externalId data |} in
  if negb seriesVisible || negb (PriceLineOptions.lineVisible lineOptions)
  then data
  else
    match yCoord with
    | None => data
    | Some y =>
        {| HorizontalLine.visible := true;
           HorizontalLine.y := y;
           HorizontalLine.color := PriceLineOptions.color lineOptions;
           HorizontalLine.lineWidth := PriceLineOptions.lineWidth lineOptions;
           HorizontalLine.lineStyle := PriceLineOptions.lineStyle lineOptions;
           HorizontalLine.externalId := PriceLineOptions.id lineOptions |}
    end.

(** ** Auxiliary definitions for the statements *)

(** A predicate that no primitive of a rounded-rectangle path satisfies. *)
Definition misses_path_ops (p : CanvasOp -> bool) : Prop :=
  p BeginPath = false
  /\ (forall x y w h rs, p (RoundRect x y w h rs) = false)
  /\ (forall x y, p (LineTo x y) = false)
  /\ (forall x1 y1 x2 y2 r, p (ArcTo x1 y1 x2 y2 r) = false).

(** The calls that [drawRoundRectWithBorder] makes between its [save] and
    its final [restore]. *)
Definition borderBody (ctx : CanvasRenderingContext2D)
  (left top width height : Q) (backgroundColor : string) (borderWidth : Q)
  (outerBorderRadius : Radii) (borderColor textColor : string)
  (draggable closeButton : bool) (iconColor : option string)
  : list CanvasOp :=
  removelast
    (tl (drawRoundRectWithBorder ctx left top width height backgroundColor
           borderWidth outerBorderRadius borderColor textColor draggable
           closeButton iconColor)).


Definition is_FillRect (op : CanvasOp) : bool :=
  match op with FillRect _ _ _ _ => true | _ => false end.


Ltac split_in H :=
  repeat match type of H with
         | In _ (_ ++ _) => apply in_app_or in H; destruct H as [H|H]
         | In _ (if ?b then _ else _) => destruct b
         end.

(** ** Sample inputs *)

Definition nativeCtx : CanvasRenderingContext2D := {| roundRect := true |}.

Definition legacyCtx : CanvasRenderingContext2D := {| roundRect := false |}.

Definition sampleOptions : PriceAxisViewRendererOptions :=
  {| font := "12px sans-serif"; fontSize := 12; paddingTop := 2;
     paddingBottom := 2; paddingInner := 3; paddingOuter := 3;
     tickLength := 5; borderSize := 1; paneBackgroundColor := "#000000" |}.

Definition sampleCommon (extraTop extraBottom : Q)
  : PriceAxisViewRendererCommonData :=
  {| background := "#131722"; coordinate := 100; fixedCoordinate := None;
     additionalPaddingTop := extraTop; additionalPaddingBottom := extraBottom |}.

Definition sampleData (label : string) (separator border : bool)
  : PriceAxisViewRendererData :=
  {| visible := true; text := label; color := "#FFFFFF"; tickVisible := true;
     moveTextToInvisibleTick := false; separatorVisible := separator;
     borderVisible := border |}.

Definition sampleRenderer (label : string) (separator border : bool)
  (extraTop extraBottom : Q) : PriceAxisViewRenderer :=
  {| _data := sampleData label separator border;
     _commonData := sampleCommon extraTop extraBottom;
     _iconColor := None |}.

(** A 100 x 200 surface at the pixel ratios [h] and [v]. *)
Definition sampleScope (h v : Q) : BitmapCoordinatesRenderingScope :=
  {| context := nativeCtx;
     bitmapSize := {| width := 100 * h; height := 200 * v |};
     mediaSize := {| width := 100; height := 200 |};
     horizontalPixelRatio := h;
     verticalPixelRatio := v |}.

(** Seven logical pixels per character, plus half a pixel. *)
Definition sampleCache : TextWidthCache :=
  {| measureText := fun _ s =>
       7 * inject_Z (Z.of_nat (String.length s)) + (1 # 2);
     yMidCorrection := fun _ _ => 0 |}.

(** *** Further recognisers and observations on traces *)

Definition is_ArcTo (op : CanvasOp) : bool :=
  match op with ArcTo _ _ _ _ _ => true | _ => false end.

Definition is_LineTo (op : CanvasOp) : bool :=
  match op with LineTo _ _ => true | _ => false end.

Definition is_Arc (op : CanvasOp) : bool :=
  match op with Arc _ _ _ _ _ _ => true | _ => false end.

Definition is_FillText (op : CanvasOp) : bool :=
  match op with FillText _ _ _ => true | _ => false end.

(** The calls that add to the current path. *)
Definition is_path_op (op : CanvasOp) : bool :=
  match op with
  | MoveTo _ _ | LineTo _ _ | ArcTo _ _ _ _ _ | Arc _ _ _ _ _ _
  | RoundRect _ _ _ _ _ | ClosePath => true
  | _ => false
  end.

(** The current path at each call recognised by [paint], in call order:
    [beginPath] empties the path, the path calls extend it, and painting,
    [save] and [restore] leave it as it is. *)
Fixpoint pathsAt (paint : CanvasOp -> bool) (path ops : list CanvasOp)
  : list (list CanvasOp) :=
  match ops with
  | [] => []
  | op :: rest =>
      match op with
      | BeginPath => pathsAt paint [] rest
      | _ =>
          if paint op then path :: pathsAt paint path rest
          else if is_path_op op then pathsAt paint (path ++ [op]) rest
          else pathsAt paint path rest
      end
  end.

(** The path that [drawRoundRect] builds after its [beginPath]. *)
Definition roundRectPath (ctx : CanvasRenderingContext2D)
  (x y w h : Q) (radii : Radii) : list CanvasOp :=
  tl (drawRoundRect ctx x y w h radii).

(** The calls that can round a corner. *)
Definition is_corner_op (op : CanvasOp) : bool :=
  match op with
  | ArcTo _ _ _ _ _ | RoundRect _ _ _ _ _ => true
  | _ => false
  end.

(** The paths a trace builds, one for each [beginPath], in call order:
    every [beginPath] ends the path under construction and starts an empty
    one; the calls made before the first [beginPath] are left out. *)
Fixpoint subpathsFrom (current ops : list CanvasOp)
  : list (list CanvasOp) :=
  match ops with
  | [] => [current]
  | op :: rest =>
      match op with
      | BeginPath => current :: subpathsFrom [] rest
      | _ =>
          if is_path_op op then subpathsFrom (current ++ [op]) rest
          else subpathsFrom current rest
      end
  end.

Definition subpaths (ops : list CanvasOp) : list (list CanvasOp) :=
  tl (subpathsFrom [] ops).

(** The end points of the [lineTo] calls of a path, in order, each with
    the fact that an [arcTo] follows it at once. *)
Fixpoint joints (path : list CanvasOp) : list (Q * Q * bool) :=
  match path with
  | [] => []
  | op :: rest =>
      match op with
      | LineTo x y =>
          (x, y, match rest with
                 | ArcTo _ _ _ _ _ :: _ => true
                 | _ => false
                 end) :: joints rest
      | _ => joints rest
      end
  end.

(** Corner [i] of the rectangle at [(x, y)] of size [w] by [h], in the
    order of the radii: left-top, right-top, right-bottom, left-bottom. *)
Definition cornerPoint (i : nat) (x y w h : Q) : Q * Q :=
  match i with
  | 0%nat => (x, y)
  | 1%nat => (x + w, y)
  | 2%nat => (x + w, y + h)
  | _ => (x, y + h)
  end.

(** The emulated path visits the corners in the order right-top,
    right-bottom, left-bottom, left-top: position of corner [i] in it. *)
Definition jointIndex (i : nat) : nat :=
  match i with
  | 0%nat => 3%nat
  | S k => k
  end.

(** [path] is the path of a rounded rectangle, possibly closed, whose
    corner [i] is square: its radius there is 0; with the native method the
    path is the one [roundRect] call with these radii, and without it the
    line to corner [i] ends on the corner itself and no arc follows it. *)
Definition squareCornerPath (ctx : CanvasRenderingContext2D) (i : nat)
  (path : list CanvasOp) : Prop :=
  exists x y w h radii closing,
    path = roundRectPath ctx x y w h radii ++ closing
    /\ (closing = [] \/ closing = [ClosePath])
    /\ radius_at radii i == 0
    /\ (roundRect ctx = true -> path = RoundRect x y w h radii :: closing)
    /\ (roundRect ctx = false ->
        Datatypes.length (joints path) = 4%nat
        /\ exists px py,
             nth_error (joints path) (jointIndex i) = Some (px, py, false)
             /\ px == fst (cornerPoint i x y w h)
             /\ py == snd (cornerPoint i x y w h)).

(** Number of radii different from 0. *)
Definition nonzeroRadii (radii : list Q) : nat :=
  List.length (filter (fun r => negb (Qeq_bool r 0)) radii).

(** A point lies in the (closed) rectangle of a [fillRect] call. *)
Definition covers (px py : Q) (op : CanvasOp) : Prop :=
  match op with
  | FillRect x y w h => (x <= px /\ px <= x + w) /\ (y <= py /\ py <= y + h)
  | _ => False
  end.

Definition mediaOps (calls : list TargetCall) : list CanvasOp :=
  flat_map (fun call =>
    match call with
    | UseBitmapCoordinateSpace _ => []
    | UseMediaCoordinateSpace ops => ops
    end) calls.

(** A label-body helper that only records the rectangle and the radii it
    is given. *)
Definition recordBody (ctx : CanvasRenderingContext2D)
  (left top width height : Q) (backgroundColor : string) (borderWidth : Q)
  (radii : Radii) (borderColor textColor : string)
  (draggable closeButton : bool) (iconColor : option string)
  : list CanvasOp :=
  [RoundRect left top width height radii].

Definition sampleLine : HorizontalLine.t :=
  {| HorizontalLine.visible := true; HorizontalLine.y := 42;
     HorizontalLine.color := "#FF0000"; HorizontalLine.lineWidth := 2;
     HorizontalLine.lineStyle := 0; HorizontalLine.externalId := Some "old"%string |}.

Definition sampleLineOptions : PriceLineOptions.t :=
  {| PriceLineOptions.lineVisible := true;
     PriceLineOptions.color := "#00FF00"; PriceLineOptions.lineWidth := 1;
     PriceLineOptions.lineStyle := 2; PriceLineOptions.id := Some "tp-1"%string |}.

(** * Properties *)

(** ** Arithmetic of the rounding primitives *)

Lemma Math_round_nonneg (x : Q) : 0 <= x -> (0 <= Math_round x)%Z.
Proof.
  intro Hx. unfold Math_round.
  change 0%Z with (Qfloor 0).
  apply Qfloor_resp_le.
  apply Qle_trans with x; [exact Hx|].
  rewrite <- (Qplus_0_r x) at 1.
  apply Qplus_le_r. discriminate.
Qed.

Lemma js_rem_nonneg (a : Z) : (0 <= a)%Z -> js_rem a 2 = (a mod 2)%Z.
Proof.
  intro Ha. unfold js_rem. apply Z.rem_mod_nonneg; lia.
Qed.

Lemma mod2_eqb_even (a b : Z) :
  Z.eqb (a mod 2) (b mod 2) = Bool.eqb (Z.even a) (Z.even b).
Proof.
  rewrite (Zeven_mod a), (Zeven_mod b).
  pose proof (Z.mod_pos_bound a 2 ltac:(lia)) as Ha.
  pose proof (Z.mod_pos_bound b 2 ltac:(lia)) as Hb.
  destruct (Z.eqb_spec (a mod 2) (b mod 2)) as [E|E];
    destruct (Z.eqb_spec (a mod 2) 0); destruct (Z.eqb_spec (b mod 2) 0);
    simpl; try reflexivity; lia.
Qed.

(** The parity test of [_calculateGeometry] on a non-negative height. *)
Lemma parity_test_nonneg (rounded tick : Z) :
  (0 <= rounded)%Z -> (0 <= tick)%Z ->
  negb (Z.eqb (js_rem rounded 2) (js_rem tick 2))
  = negb (Bool.eqb (Z.even rounded) (Z.even tick)).
Proof.
  intros Hr Ht.
  now rewrite !js_rem_nonneg, mod2_eqb_even.
Qed.

Section GeometryFacts.

Variable this : PriceAxisViewRenderer.
Variable scope : BitmapCoordinatesRenderingScope.
Variable rendererOptions : PriceAxisViewRendererOptions.
Variable textWidthCache : TextWidthCache.
Variable align : Align.
Variable closeButton : bool.

Lemma tickHeightBitmap_pos : (1 <= tickHeightBitmap scope)%Z.
Proof. unfold tickHeightBitmap, Math_max. lia. Qed.

Lemma totalHeightBitmap_cases :
  let rounded :=
    Math_round (totalHeight this rendererOptions * verticalPixelRatio scope) in
  (0 <= rounded)%Z ->
  (Z.even rounded = Z.even (tickHeightBitmap scope) ->
   totalHeightBitmap this scope rendererOptions = rounded)
  /\ (Z.even rounded <> Z.even (tickHeightBitmap scope) ->
      totalHeightBitmap this scope rendererOptions = (rounded + 1)%Z)
  /\ Z.even (totalHeightBitmap this scope rendererOptions)
     = Z.even (tickHeightBitmap scope).
Proof.
  intros rounded Hr.
  pose proof tickHeightBitmap_pos as Ht.
  unfold totalHeightBitmap. fold rounded.
  rewrite parity_test_nonneg by lia.
  destruct (Z.even rounded) eqn:Er, (Z.even (tickHeightBitmap scope)) eqn:Et;
    simpl; repeat split; try congruence.
  - rewrite Z.even_add, Er. reflexivity.
  - rewrite Z.even_add, Er. reflexivity.
Qed.

End GeometryFacts.

(** ** The geometry engine *)

(** C1.  For a vertical pixel ratio of at least 1 and a label whose
    logical total height (font size plus paddings, a length) is not
    negative, the tick's bitmap height is
    [max 1 (floor r)], the bitmap total height and the tick height have the
    same parity, and the total height is the rounded height when the parities
    already agree and the rounded height plus one when they differ; at
    [r = 3/2] the tick is 1 pixel high and an even rounded height is made
    odd. *)
Theorem geometry_parity_invariant
  (this : PriceAxisViewRenderer) (scope : BitmapCoordinatesRenderingScope)
  (rendererOptions : PriceAxisViewRendererOptions)
  (textWidthCache : TextWidthCache) (align : Align) (closeButton : bool) :
  1 <= verticalPixelRatio scope ->
  0 <= totalHeight this rendererOptions ->
  let g := _calculateGeometry this scope rendererOptions textWidthCache align
                              closeButton in
  let rounded :=
    Math_round (totalHeight this rendererOptions * verticalPixelRatio scope) in
  let tick := Bitmap.tickHeight (bitmap g) in
  tick = Z.max 1 (Qfloor (verticalPixelRatio scope))
  /\ Z.even (Bitmap.totalHeight (bitmap g)) = Z.even tick
  /\ (Z.even rounded = Z.even tick ->
      Bitmap.totalHeight (bitmap g) = rounded)
  /\ (Z.even rounded <> Z.even tick ->
      Bitmap.totalHeight (bitmap g) = (rounded + 1)%Z)
  /\ (verticalPixelRatio scope == 3 # 2 ->
      tick = 1%Z /\ Z.odd (Bitmap.totalHeight (bitmap g)) = true).
Proof.
  intros Hr Hh g rounded tick.
  assert (Hrounded : (0 <= rounded)%Z).
  { apply Math_round_nonneg, Qmult_le_0_compat; [exact Hh|].
    apply Qle_trans with 1; [discriminate | exact Hr]. }
  destruct (totalHeightBitmap_cases this scope rendererOptions Hrounded)
    as (Hsame & Hdiff & Hpar).
  change (Bitmap.totalHeight (bitmap g))
    with (totalHeightBitmap this scope rendererOptions).
  change tick with (tickHeightBitmap scope).
  split; [reflexivity|].
  split; [exact Hpar|].
  split; [exact Hsame|].
  split; [exact Hdiff|].
  intro H32.
  assert (Etick : tickHeightBitmap scope = 1%Z).
  { unfold tickHeightBitmap, Math_floor.
    rewrite (Qfloor_comp _ _ H32). reflexivity. }
  split; [exact Etick|].
  rewrite <- Z.negb_even, Hpar, Etick. reflexivity.
Qed.

Lemma geometry_parity_invariant_witness :
  let g := _calculateGeometry (sampleRenderer "12.50" true true 0 0)
             (sampleScope (3 # 2) (3 # 2)) sampleOptions sampleCache
             AlignRight false in
  Bitmap.tickHeight (bitmap g) = 1%Z
  /\ Z.even (Bitmap.totalHeight (bitmap g))
     = Z.even (Bitmap.tickHeight (bitmap g)).
Proof.
  pose proof (geometry_parity_invariant (sampleRenderer "12.50" true true 0 0)
    (sampleScope (3 # 2) (3 # 2)) sampleOptions sampleCache AlignRight false)
    as H.
  destruct H as (Htick & Hpar & _).
  - unfold Qle; simpl; lia.
  - unfold Qle; simpl; lia.
  - split; [exact Htick | exact Hpar].
Defined.

(** C5.  The bitmap vertical centre is [round (anchorY * r) - floor (r / 2)]
    where [anchorY] is [fixedCoordinate] when present and [coordinate]
    otherwise; the top is [floor (mid + tickHeight / 2 - totalHeight / 2)]
    and the bottom is the top plus the total height. *)
Theorem geometry_vertical_placement
  (this : PriceAxisViewRenderer) (scope : BitmapCoordinatesRenderingScope)
  (rendererOptions : PriceAxisViewRendererOptions)
  (textWidthCache : TextWidthCache) (align : Align) (closeButton : bool) :
  let gb := bitmap (_calculateGeometry this scope rendererOptions
                      textWidthCache align closeButton) in
  let r := verticalPixelRatio scope in
  let anchorY :=
    match fixedCoordinate (_commonData this) with
    | Some fixed => fixed
    | None => coordinate (_commonData this)
    end in
  Bitmap.yMid gb = (Qfloor (anchorY * r + (1 # 2)) - Qfloor (r * (1 # 2)))%Z
  /\ Bitmap.yTop gb
     = Qfloor (inject_Z (Bitmap.yMid gb)
               + inject_Z (Bitmap.tickHeight gb) / 2
               - inject_Z (Bitmap.totalHeight gb) / 2)
  /\ Bitmap.yBottom gb = (Bitmap.yTop gb + Bitmap.totalHeight gb)%Z.
Proof.
  repeat split.
Qed.

(** C6.  The logical total width is border size + inner padding + outer
    padding + content width + effective tick length + the close-button width
    16 when a close button is requested; the effective tick length is the
    configured one when [tickVisible] holds or [moveTextToInvisibleTick] does
    not, and 0 otherwise; the content width is 13 in icon mode and otherwise
    the least integer not below the measured text width.  The bitmap total
    width is this value times the horizontal ratio, rounded. *)
Theorem geometry_total_width
  (this : PriceAxisViewRenderer) (scope : BitmapCoordinatesRenderingScope)
  (rendererOptions : PriceAxisViewRendererOptions)
  (textWidthCache : TextWidthCache) (align : Align) (closeButton : bool) :
  let d := _data this in
  let measured := measureText textWidthCache (context scope) (text d) in
  let effectiveTickLength :=
    if tickVisible d || negb (moveTextToInvisibleTick d)
    then tickLength rendererOptions else 0 in
  let contentWidth := textWidth this scope textWidthCache in
  let logical := totalWidth this scope rendererOptions textWidthCache
                            closeButton in
  logical == borderSize rendererOptions + paddingInner rendererOptions
             + paddingOuter rendererOptions + inject_Z contentWidth
             + effectiveTickLength + (if closeButton then 16 else 0)
  /\ (truthy_opt (_iconColor this) = true -> contentWidth = 13%Z)
  /\ (truthy_opt (_iconColor this) = false ->
      measured <= inject_Z contentWidth
      /\ inject_Z contentWidth < measured + 1)
  /\ Bitmap.totalWidth
       (bitmap (_calculateGeometry this scope rendererOptions textWidthCache
                                   align closeButton))
     = Math_round (logical * horizontalPixelRatio scope).
Proof.
  intros d measured effectiveTickLength contentWidth logical.
  split; [|split; [|split]].
  - unfold logical, totalWidth, tickSize. reflexivity.
  - intro Hicon. unfold contentWidth, textWidth. now rewrite Hicon.
  - intro Htext. unfold contentWidth, textWidth, Math_ceil.
    rewrite Htext. fold d. fold measured. split.
    + apply Qle_ceiling.
    + pose proof (Qceiling_lt measured) as Hlt.
      unfold Z.sub in Hlt. rewrite inject_Z_plus in Hlt.
      apply Qplus_lt_l with (z := inject_Z (- 1)).
      setoid_replace (measured + 1 + inject_Z (- 1)) with measured
        by (unfold inject_Z; ring).
      exact Hlt.
  - reflexivity.
Qed.

Lemma geometry_total_width_witness :
  let this := sampleRenderer "12.50" true true 0 0 in
  let scope := sampleScope 2 2 in
  truthy_opt (_iconColor this) = false
  /\ measureText sampleCache (context scope) (text (_data this))
     <= inject_Z (textWidth this scope sampleCache).
Proof.
  split; [reflexivity|].
  apply (geometry_total_width (sampleRenderer "12.50" true true 0 0)
           (sampleScope 2 2) sampleOptions sampleCache AlignRight true).
  reflexivity.
Defined.

(** C7, as amended.  For a visible label the geometry engine's logical
    total height is the font size plus the two paddings, each increased by
    its additional padding, while [height] reports the font size plus the
    two plain paddings; the two agree exactly when the additional paddings
    add up to zero.  With font size 12 and paddings 2 and 2 [height]
    reports 16, and with no additional padding the bitmap height at vertical
    ratio 2 is 32 with a tick height of 2. *)
Theorem geometry_total_height
  (this : PriceAxisViewRenderer) (scope : BitmapCoordinatesRenderingScope)
  (rendererOptions : PriceAxisViewRendererOptions)
  (textWidthCache : TextWidthCache) (align : Align)
  (closeButton useSecondLine : bool) :
  visible (_data this) = true ->
  let extraTop := additionalPaddingTop (_commonData this) in
  let extraBottom := additionalPaddingBottom (_commonData this) in
  let reported := height_ this rendererOptions useSecondLine in
  let logical := totalHeight this rendererOptions in
  let gb := bitmap (_calculateGeometry this scope rendererOptions
                      textWidthCache align closeButton) in
  logical == fontSize rendererOptions
             + (paddingTop rendererOptions + extraTop)
             + (paddingBottom rendererOptions + extraBottom)
  /\ reported = fontSize rendererOptions + paddingTop rendererOptions
                + paddingBottom rendererOptions
  /\ (reported == logical <-> extraTop + extraBottom == 0)
  /\ (fontSize rendererOptions == 12 -> paddingTop rendererOptions == 2 ->
      paddingBottom rendererOptions == 2 ->
      reported == 16
      /\ (extraTop == 0 -> extraBottom == 0 ->
          verticalPixelRatio scope == 2 ->
          Bitmap.totalHeight gb = 32%Z /\ Bitmap.tickHeight gb = 2%Z)).
Proof.
  intros Hvis extraTop extraBottom reported logical gb.
  assert (Hrep : reported = fontSize rendererOptions
                            + paddingTop rendererOptions
                            + paddingBottom rendererOptions).
  { unfold reported, height_. now rewrite Hvis. }
  assert (Hlog : logical == fontSize rendererOptions
                            + (paddingTop rendererOptions + extraTop)
                            + (paddingBottom rendererOptions + extraBottom)).
  { unfold logical, totalHeight, paddingTop', paddingBottom'. reflexivity. }
  split; [exact Hlog|]. split; [exact Hrep|]. split.
  - rewrite Hrep. unfold extraTop, extraBottom in *. split; intro H; lra.
  - intros Hf Ht Hb. split.
    + rewrite Hrep, Hf, Ht, Hb. reflexivity.
    + intros Het Heb Hr.
      assert (Etick : tickHeightBitmap scope = 2%Z).
      { unfold tickHeightBitmap, Math_floor.
        rewrite (Qfloor_comp _ _ Hr). reflexivity. }
      assert (Eround : Math_round (logical * verticalPixelRatio scope) = 32%Z).
      { unfold Math_round.
        assert (E : logical * verticalPixelRatio scope + (1 # 2) == 65 # 2).
        { rewrite Hlog, Hf, Ht, Hb, Het, Heb, Hr. reflexivity. }
        rewrite (Qfloor_comp _ _ E). reflexivity. }
      split; [|exact Etick].
      change (Bitmap.totalHeight gb)
        with (totalHeightBitmap this scope rendererOptions).
      unfold totalHeightBitmap. fold logical.
      rewrite Eround, Etick. reflexivity.
Qed.

Lemma geometry_total_height_witness :
  let this := sampleRenderer "12.50" true true 0 0 in
  visible (_data this) = true
  /\ height_ this sampleOptions false = 12 + 2 + 2
  /\ Bitmap.totalHeight
       (bitmap (_calculateGeometry this (sampleScope 2 2) sampleOptions
                                   sampleCache AlignRight false)) = 32%Z.
Proof.
  pose proof (geometry_total_height (sampleRenderer "12.50" true true 0 0)
    (sampleScope 2 2) sampleOptions sampleCache AlignRight false false
    eq_refl) as (_ & Hrep & _ & Hscen).
  split; [reflexivity|]. split; [exact Hrep|].
  destruct (Hscen (Qeq_refl _) (Qeq_refl _) (Qeq_refl _)) as (_ & Hbitmap).
  destruct (Hbitmap (Qeq_refl _) (Qeq_refl _) (Qeq_refl _)) as (Htotal & _).
  exact Htotal.
Defined.

(** C7 as stated fails when the caller contributes additional padding:
    with font size 12, paddings 2 and 2 and an additional top padding of 3
    the geometry engine lays the label out 19 logical pixels high while
    [height] reports 16. *)
Lemma height_ignores_additional_padding :
  let this := sampleRenderer "12.50" true true 3 0 in
  visible (_data this) = true
  /\ totalHeight this sampleOptions == 19
  /\ height_ this sampleOptions false == 16
  /\ ~ height_ this sampleOptions false == totalHeight this sampleOptions.
Proof.
  repeat split; vm_compute; discriminate.
Qed.

(** C8, as amended.  The media-space top and bottom are the bitmap top and
    bottom divided by the vertical pixel ratio, without rounding (so that
    multiplying back by a non-zero ratio returns the bitmap value); the text
    X offset is laid out directly in media space, from the media width, the
    separator thickness, the effective tick length and the inner padding. *)
Theorem geometry_media_fields
  (this : PriceAxisViewRenderer) (scope : BitmapCoordinatesRenderingScope)
  (rendererOptions : PriceAxisViewRendererOptions)
  (textWidthCache : TextWidthCache) (align : Align) (closeButton : bool) :
  let g := _calculateGeometry this scope rendererOptions textWidthCache align
                              closeButton in
  let r := verticalPixelRatio scope in
  let separator :=
    if separatorVisible (_data this) then borderSize rendererOptions else 0 in
  let tick :=
    if tickVisible (_data this) || negb (moveTextToInvisibleTick (_data this))
    then tickLength rendererOptions else 0 in
  Media.yTop (media g) == inject_Z (Bitmap.yTop (bitmap g)) / r
  /\ Media.yBottom (media g) == inject_Z (Bitmap.yBottom (bitmap g)) / r
  /\ (~ r == 0 ->
      Media.yTop (media g) * r == inject_Z (Bitmap.yTop (bitmap g))
      /\ Media.yBottom (media g) * r == inject_Z (Bitmap.yBottom (bitmap g)))
  /\ Media.xText (media g)
     == match align with
        | AlignRight =>
            width (mediaSize scope) - separator - tick
            - paddingInner rendererOptions - separator
        | AlignLeft => separator + tick + paddingInner rendererOptions
        end.
Proof.
  intros g r separator tick.
  split; [reflexivity|]. split; [reflexivity|]. split.
  - intro Hr. split.
    + change (inject_Z (Bitmap.yTop (bitmap g)) / r * r
              == inject_Z (Bitmap.yTop (bitmap g))).
      field. exact Hr.
    + change (inject_Z (Bitmap.yBottom (bitmap g)) / r * r
              == inject_Z (Bitmap.yBottom (bitmap g))).
      field. exact Hr.
  - destruct align; reflexivity.
Qed.

Lemma geometry_media_fields_witness :
  let g := _calculateGeometry (sampleRenderer "12.50" true true 0 0)
             (sampleScope (3 # 2) (3 # 2)) sampleOptions sampleCache
             AlignLeft true in
  ~ 3 # 2 == 0
  /\ Media.yTop (media g) * (3 # 2) == inject_Z (Bitmap.yTop (bitmap g)).
Proof.
  assert (Hr : ~ 3 # 2 == 0) by discriminate.
  split; [exact Hr|].
  apply (geometry_media_fields (sampleRenderer "12.50" true true 0 0)
           (sampleScope (3 # 2) (3 # 2)) sampleOptions sampleCache
           AlignLeft true).
  exact Hr.
Defined.

(** C8 as stated fails for the text X offset: on a left-aligned label
    without separator, at both ratios 2, the offset is 8 logical pixels and
    no bitmap-space field of the record divided by the vertical ratio gives
    that value. *)
Lemma xText_is_not_a_scaled_bitmap_field :
  let scope := sampleScope 2 2 in
  let g := _calculateGeometry (sampleRenderer "12.50" false false 0 0) scope
             sampleOptions sampleCache AlignLeft false in
  let gb := bitmap g in
  let r := verticalPixelRatio scope in
  Media.xText (media g) == 8
  /\ Forall (fun b => ~ Media.xText (media g) == b / r)
       [ inject_Z (Bitmap.yTop gb); inject_Z (Bitmap.yMid gb);
         inject_Z (Bitmap.yBottom gb); inject_Z (Bitmap.totalWidth gb);
         inject_Z (Bitmap.totalHeight gb); Bitmap.radius gb;
         inject_Z (Bitmap.horzBorder gb); Bitmap.xOutside gb;
         Bitmap.xInside gb; Bitmap.xTick gb;
         inject_Z (Bitmap.tickHeight gb); Bitmap.right gb ].
Proof.
  split; [reflexivity|].
  repeat constructor; vm_compute; discriminate.
Qed.

(** ** Traces of the canvas helpers *)

Lemma count_app (p : CanvasOp -> bool) (a b : list CanvasOp) :
  count p (a ++ b) = (count p a + count p b)%nat.
Proof.
  unfold count. now rewrite filter_app, length_app.
Qed.

Lemma count_cons (p : CanvasOp -> bool) (op : CanvasOp) (ops : list CanvasOp) :
  count p (op :: ops) = ((if p op then 1 else 0) + count p ops)%nat.
Proof.
  unfold count. simpl. now destruct (p op).
Qed.

Lemma is_Fill_misses_path_ops : misses_path_ops is_Fill.
Proof. repeat split. Qed.

Lemma is_Stroke_misses_path_ops : misses_path_ops is_Stroke.
Proof. repeat split. Qed.

Lemma is_ClosePath_misses_path_ops : misses_path_ops is_ClosePath.
Proof. repeat split. Qed.

Lemma is_scope_op_misses_path_ops : misses_path_ops is_scope_op.
Proof. repeat split. Qed.

Create HintDb canvas.

#[local] Hint Resolve is_Fill_misses_path_ops is_Stroke_misses_path_ops
  is_ClosePath_misses_path_ops is_scope_op_misses_path_ops : canvas.

Lemma count_drawRoundRect (p : CanvasOp -> bool)
  (ctx : CanvasRenderingContext2D) (x y w h : Q) (radii : Radii) :
  misses_path_ops p -> count p (drawRoundRect ctx x y w h radii) = 0%nat.
Proof.
  intros (Hb & Hr & Hl & Ha).
  unfold drawRoundRect.
  destruct (roundRect ctx).
  - rewrite count_app, !count_cons, Hb, Hr. reflexivity.
  - repeat match goal with
           | |- context [if negb (Qeq_bool ?r 0) then _ else _] =>
               destruct (Qeq_bool r 0); simpl negb; cbv iota
           end;
      repeat (rewrite ?count_app, ?count_cons, ?Hb, ?Hl, ?Ha);
      reflexivity.
Qed.

Lemma is_FillRect_misses_path_ops : misses_path_ops is_FillRect.
Proof. repeat split. Qed.

Lemma is_Arc_misses_path_ops : misses_path_ops is_Arc.
Proof. repeat split. Qed.

#[local] Hint Resolve is_FillRect_misses_path_ops is_Arc_misses_path_ops
  : canvas.

(** Counts the painting calls of a [drawRoundRectWithBorder] trace by
    cases on the tests the helper makes. *)
Ltac count_paint_ops :=
  unfold drawRoundRectWithBorder;
  match goal with
  | |- context [noBorder ?bg ?bw ?bc] =>
      destruct (noBorder bg bw bc);
      [ rewrite !count_app, !count_drawRoundRect by auto with canvas;
        repeat split
      | cbv zeta;
        match goal with
        | |- context [String.eqb bg ?t] =>
            destruct (String.eqb bg t), (String.eqb bc t)
        end;
        match goal with
        | |- context [if ?d then DRAG_HANDLE_SIZE else _] => destruct d
        end;
        match goal with
        | |- context [if ?c then ADD_BUTTON_SIZE + _ + 1 else _] =>
            destruct c
        end;
        cbn [negb];
        rewrite !count_app, !count_drawRoundRect by auto with canvas;
        repeat split ]
  end.

Lemma drawRoundRect_shape (ctx : CanvasRenderingContext2D)
  (x y w h : Q) (radii : Radii) :
  drawRoundRect ctx x y w h radii
  = BeginPath :: roundRectPath ctx x y w h radii
  /\ Forall (fun op => is_path_op op = true)
            (roundRectPath ctx x y w h radii).
Proof.
  unfold roundRectPath, drawRoundRect.
  destruct (roundRect ctx).
  - split; [reflexivity|]. repeat constructor.
  - split; [reflexivity|].
    repeat match goal with
           | |- context [if negb (Qeq_bool ?r 0) then _ else _] =>
               destruct (Qeq_bool r 0); simpl negb; cbv iota
           end;
      repeat constructor.
Qed.

Lemma pathsAt_path_ops (paint : CanvasOp -> bool)
  (body rest path : list CanvasOp) :
  (forall op, is_path_op op = true -> paint op = false) ->
  Forall (fun op => is_path_op op = true) body ->
  pathsAt paint path (body ++ rest) = pathsAt paint (path ++ body) rest.
Proof.
  intros Hpaint Hbody. revert path.
  induction Hbody as [|op body Hop _ IH]; intro path.
  - now rewrite app_nil_r.
  - cbn [app pathsAt].
    rewrite (Hpaint op Hop), Hop.
    replace (path ++ op :: body) with ((path ++ [op]) ++ body)
      by now rewrite <- app_assoc.
    destruct op; try discriminate Hop; apply IH.
Qed.

Lemma pathsAt_drawRoundRect (paint : CanvasOp -> bool)
  (ctx : CanvasRenderingContext2D) (x y w h : Q) (radii : Radii)
  (rest path : list CanvasOp) :
  (forall op, is_path_op op = true -> paint op = false) ->
  pathsAt paint path (drawRoundRect ctx x y w h radii ++ rest)
  = pathsAt paint (roundRectPath ctx x y w h radii) rest.
Proof.
  intro Hpaint.
  destruct (drawRoundRect_shape ctx x y w h radii) as (Hshape & Hpath).
  rewrite Hshape. cbn [app pathsAt].
  now rewrite pathsAt_path_ops.
Qed.

Lemma is_Stroke_not_path_op (op : CanvasOp) :
  is_path_op op = true -> is_Stroke op = false.
Proof. destruct op; simpl; intro H; try reflexivity; discriminate H. Qed.

Lemma is_Fill_not_path_op (op : CanvasOp) :
  is_path_op op = true -> is_Fill op = false.
Proof. destruct op; simpl; intro H; try reflexivity; discriminate H. Qed.

(** ** Effect of a trace on the drawing state *)

Lemma run_app (a b : list CanvasOp) (s : SurfaceState) :
  run (a ++ b) s = run b (run a s).
Proof. unfold run. apply fold_left_app. Qed.

Lemma exec_keeps_saved (op : CanvasOp) (s : SurfaceState) :
  is_scope_op op = false -> saved (exec op s) = saved s.
Proof.
  destruct op; simpl; intro H; try reflexivity; discriminate H.
Qed.

Lemma run_keeps_saved (ops : list CanvasOp) :
  count is_scope_op ops = 0%nat ->
  forall s, saved (run ops s) = saved s.
Proof.
  induction ops as [|op ops IH]; intros Hc s; [reflexivity|].
  rewrite count_cons in Hc.
  destruct (is_scope_op op) eqn:Hop; [discriminate Hc|].
  change (run (op :: ops) s) with (run ops (exec op s)).
  rewrite IH by exact Hc.
  now apply exec_keeps_saved.
Qed.

(** A body without [save] or [restore], run between a [save] and a
    [restore], leaves the drawing state and the stack of saved states as
    they were. *)
Lemma run_bracket (body : list CanvasOp) (s : SurfaceState) :
  count is_scope_op body = 0%nat ->
  run ([Save] ++ body ++ [Restore]) s = s.
Proof.
  intro Hbody.
  rewrite !run_app.
  set (s1 := run [Save] s).
  pose proof (run_keeps_saved body Hbody s1) as Hsaved.
  change (run [Restore] (run body s1)) with (exec Restore (run body s1)).
  unfold exec. rewrite Hsaved. subst s1. simpl.
  now destruct s.
Qed.

Lemma removelast_snoc (A : Type) (l : list A) (a : A) :
  removelast (l ++ [a]) = l.
Proof.
  apply removelast_last.
Qed.

Lemma drawRoundRectWithBorder_bracket (ctx : CanvasRenderingContext2D)
  (left top width height : Q) (backgroundColor : string) (borderWidth : Q)
  (outerBorderRadius : Radii) (borderColor textColor : string)
  (draggable closeButton : bool) (iconColor : option string) :
  let body := borderBody ctx left top width height backgroundColor
                borderWidth outerBorderRadius borderColor textColor draggable
                closeButton iconColor in
  drawRoundRectWithBorder ctx left top width height backgroundColor
    borderWidth outerBorderRadius borderColor textColor draggable closeButton
    iconColor
  = [Save] ++ body ++ [Restore]
  /\ count is_scope_op body = 0%nat.
Proof.
  unfold borderBody, drawRoundRectWithBorder.
  destruct (noBorder backgroundColor borderWidth borderColor).
  - set (rr := drawRoundRect _ _ _ _ _ _).
    change ([Save] ++ rr ++ [SetFillStyle (Color backgroundColor); Fill; Restore])
      with (Save :: rr ++ [SetFillStyle (Color backgroundColor); Fill; Restore]).
    cbn [tl].
    replace (rr ++ [SetFillStyle (Color backgroundColor); Fill; Restore])
      with ((rr ++ [SetFillStyle (Color backgroundColor); Fill]) ++ [Restore])
      by now rewrite <- app_assoc.
    rewrite removelast_snoc. split; [reflexivity|].
    rewrite count_app. unfold rr.
    rewrite count_drawRoundRect by auto with canvas. reflexivity.
  - set (rr1 := drawRoundRect _ _ _ _ _ _).
    set (fillLayer := if negb (backgroundColor =? "transparent")%string
                      then _ else _).
    set (strokeLayer := if negb (borderColor =? "transparent")%string
                        then _ else _).
    change ([Save] ++ rr1 ++ fillLayer ++ strokeLayer ++ [Restore])
      with (Save :: rr1 ++ fillLayer ++ strokeLayer ++ [Restore]).
    cbn [tl].
    replace (rr1 ++ fillLayer ++ strokeLayer ++ [Restore])
      with ((rr1 ++ fillLayer ++ strokeLayer) ++ [Restore])
      by now rewrite <- !app_assoc.
    rewrite removelast_snoc. split; [reflexivity|].
    rewrite !count_app. unfold rr1.
    rewrite count_drawRoundRect by auto with canvas.
    assert (Hfill : count is_scope_op fillLayer = 0%nat).
    { unfold fillLayer.
      destruct (negb (backgroundColor =? "transparent")%string);
        [|reflexivity].
      cbv zeta. rewrite !count_app.
      rewrite count_drawRoundRect by auto with canvas.
      destruct draggable, closeButton; reflexivity. }
    assert (Hstroke : count is_scope_op strokeLayer = 0%nat).
    { unfold strokeLayer.
      destruct (negb (borderColor =? "transparent")%string); reflexivity. }
    rewrite Hfill, Hstroke. reflexivity.
Qed.

(** C9.  [clearRect], [clearRectWithGradient] and [drawRoundRectWithBorder]
    each run between a [save] and a [restore] on every path, so that the
    drawing state (fill style, stroke style, line width, composite mode,
    font, text alignment and baseline) and the stack of saved states are,
    after the call, what they were before it. *)
Theorem helpers_restore_drawing_state (s : SurfaceState)
  (ctx : CanvasRenderingContext2D) (x y w h : Q)
  (clearColor topColor bottomColor backgroundColor borderColor textColor
     : string)
  (borderWidth : Q) (outerBorderRadius : Radii)
  (draggable closeButton : bool) (iconColor : option string) :
  run (clearRect x y w h clearColor) s = s
  /\ run (clearRectWithGradient x y w h topColor bottomColor) s = s
  /\ run (drawRoundRectWithBorder ctx x y w h backgroundColor borderWidth
            outerBorderRadius borderColor textColor draggable closeButton
            iconColor) s = s.
Proof.
  split; [|split].
  - apply (run_bracket
             [ SetGlobalCompositeOperation "copy";
               SetFillStyle (Color clearColor); FillRect x y w h ]).
    reflexivity.
  - apply (run_bracket
             [ SetGlobalCompositeOperation "copy";
               CreateLinearGradient 0 0 0 h;
               SetFillStyle
                 (LinearGradient 0 0 0 h [(0, topColor); (1, bottomColor)]);
               FillRect x y w h ]).
    reflexivity.
  - destruct (drawRoundRectWithBorder_bracket ctx x y w h backgroundColor
                borderWidth outerBorderRadius borderColor textColor draggable
                closeButton iconColor) as (Heq & Hbody).
    rewrite Heq. now apply run_bracket.
Qed.

(** ** Fill and stroke layers of [drawRoundRectWithBorder] *)





(** ** Corner radii *)

Lemma changeBorderRadius_zero (borderRadius : Radii) (offset : Q) (i : nat) :
  radius_at borderRadius i == 0 ->
  radius_at (changeBorderRadius borderRadius offset) i == 0.
Proof.
  unfold radius_at, changeBorderRadius.
  revert i. induction borderRadius as [|x xs IH]; intros i Hz.
  - destruct i; reflexivity.
  - destruct i as [|i]; simpl in *.
    + apply Qeq_bool_iff in Hz. rewrite Hz.
      now apply Qeq_bool_iff.
    + now apply IH.
Qed.

Lemma changeBorderRadius_nonzero (borderRadius : Radii) (offset : Q)
  (i : nat) :
  ~ radius_at borderRadius i == 0 ->
  radius_at (changeBorderRadius borderRadius offset) i
  == radius_at borderRadius i + offset.
Proof.
  unfold radius_at, changeBorderRadius.
  revert i. induction borderRadius as [|x xs IH]; intros i Hnz.
  - destruct i; exfalso; apply Hnz; reflexivity.
  - destruct i as [|i]; simpl in *.
    + destruct (Qeq_bool x 0) eqn:E; [|reflexivity].
      exfalso. apply Hnz. now apply Qeq_bool_iff.
    + now apply IH.
Qed.

Lemma in_drawRoundRect_RoundRect (ctx : CanvasRenderingContext2D)
  (x y w h : Q) (radii : Radii) (x' y' w' h' : Q) (rs : Radii) :
  In (RoundRect x' y' w' h' rs) (drawRoundRect ctx x y w h radii) ->
  rs = radii.
Proof.
  unfold drawRoundRect. destruct (roundRect ctx).
  - simpl. intros [H|[H|[]]]; [discriminate H | now inversion H].
  - repeat match goal with
           | |- context [if negb (Qeq_bool ?r 0) then _ else _] =>
               destruct (Qeq_bool r 0); simpl negb; cbv iota
           end;
      simpl; intuition discriminate.
Qed.

Lemma in_drawRoundRect_ArcTo (ctx : CanvasRenderingContext2D)
  (x y w h : Q) (radii : Radii) (x1 y1 x2 y2 r : Q) :
  In (ArcTo x1 y1 x2 y2 r) (drawRoundRect ctx x y w h radii) ->
  ~ r == 0.
Proof.
  unfold drawRoundRect. destruct (roundRect ctx).
  - simpl. intuition discriminate.
  - repeat match goal with
           | |- context [if negb (Qeq_bool ?q 0) then _ else _] =>
               let E := fresh "E" in
               destruct (Qeq_bool q 0) eqn:E; simpl negb; cbv iota
           end;
      simpl; intros Hin;
      repeat match type of Hin with
             | _ \/ _ => destruct Hin as [Hin|Hin]
             | False => destruct Hin
             | LineTo _ _ = _ => discriminate Hin
             | BeginPath = _ => discriminate Hin
             | ArcTo _ _ _ _ _ = ArcTo _ _ _ _ _ =>
                 inversion Hin; subst; clear Hin;
                 intro Hz; apply Qeq_bool_iff in Hz; congruence
             end.
Qed.

Lemma in_drawRoundRectWithBorder_RoundRect (ctx : CanvasRenderingContext2D)
  (left top width height : Q) (backgroundColor : string) (borderWidth : Q)
  (outerBorderRadius : Radii) (borderColor textColor : string)
  (draggable closeButton : bool) (iconColor : option string)
  (x y w h : Q) (rs : Radii) :
  In (RoundRect x y w h rs)
     (drawRoundRectWithBorder ctx left top width height backgroundColor
        borderWidth outerBorderRadius borderColor textColor draggable
        closeButton iconColor) ->
  rs = outerBorderRadius
  \/ rs = changeBorderRadius outerBorderRadius (- (borderWidth / 2))
  \/ rs = changeBorderRadius outerBorderRadius (- borderWidth).
Proof.
  unfold drawRoundRectWithBorder. intro Hin. cbv zeta in Hin.
  split_in Hin;
    try (apply in_drawRoundRect_RoundRect in Hin; now auto);
    simpl in Hin; intuition discriminate.
Qed.

Lemma in_drawRoundRectWithBorder_ArcTo (ctx : CanvasRenderingContext2D)
  (left top width height : Q) (backgroundColor : string) (borderWidth : Q)
  (outerBorderRadius : Radii) (borderColor textColor : string)
  (draggable closeButton : bool) (iconColor : option string)
  (x1 y1 x2 y2 r : Q) :
  In (ArcTo x1 y1 x2 y2 r)
     (drawRoundRectWithBorder ctx left top width height backgroundColor
        borderWidth outerBorderRadius borderColor textColor draggable
        closeButton iconColor) ->
  ~ r == 0.
Proof.
  unfold drawRoundRectWithBorder. intro Hin. cbv zeta in Hin.
  split_in Hin;
    try (apply in_drawRoundRect_ArcTo in Hin; exact Hin);
    simpl in Hin; intuition discriminate.
Qed.

Lemma subpathsFrom_path_ops (body rest current : list CanvasOp) :
  Forall (fun op => is_path_op op = true) body ->
  subpathsFrom current (body ++ rest) = subpathsFrom (current ++ body) rest.
Proof.
  intro Hbody. revert current.
  induction Hbody as [|op body Hop _ IH]; intro current.
  - now rewrite app_nil_r.
  - cbn [app subpathsFrom]. rewrite Hop.
    replace (current ++ op :: body) with ((current ++ [op]) ++ body)
      by now rewrite <- app_assoc.
    destruct op; try discriminate Hop; apply IH.
Qed.

Lemma subpathsFrom_drawRoundRect (ctx : CanvasRenderingContext2D)
  (x y w h : Q) (radii : Radii) (rest current : list CanvasOp) :
  subpathsFrom current (drawRoundRect ctx x y w h radii ++ rest)
  = current :: subpathsFrom (roundRectPath ctx x y w h radii) rest.
Proof.
  destruct (drawRoundRect_shape ctx x y w h radii) as (Hshape & Hpath).
  rewrite Hshape. cbn [app subpathsFrom].
  now rewrite subpathsFrom_path_ops.
Qed.

Lemma rounded_path_square (ctx : CanvasRenderingContext2D)
  (x y w h : Q) (radii : Radii) (closing : list CanvasOp) (i : nat) :
  (i < 4)%nat ->
  radius_at radii i == 0 ->
  closing = [] \/ closing = [ClosePath] ->
  squareCornerPath ctx i (roundRectPath ctx x y w h radii ++ closing).
Proof.
  intros Hi Hz Hclosing.
  exists x, y, w, h, radii, closing.
  split; [reflexivity|]. split; [exact Hclosing|]. split; [exact Hz|].
  unfold roundRectPath, drawRoundRect.
  split; intro Hctx; rewrite Hctx; [reflexivity|].
  cbn [tl app].
  assert (Hb : Qeq_bool (radius_at radii i) 0 = true)
    by now apply Qeq_bool_iff.
  destruct i as [|[|[|[|i]]]]; [| | | |lia]; rewrite Hb; cbn [negb];
    destruct Hclosing as [-> | ->];
    repeat match goal with
           | |- context [if negb (Qeq_bool ?r 0) then _ else _] =>
               destruct (Qeq_bool r 0); cbn [negb]
           end;
    (split; [reflexivity|]);
    cbn [app joints nth_error jointIndex cornerPoint fst snd];
    eexists _, _; (split; [reflexivity|]); split; lra.
Qed.

Lemma rounded_path_square_open (ctx : CanvasRenderingContext2D)
  (x y w h : Q) (radii : Radii) (i : nat) :
  (i < 4)%nat ->
  radius_at radii i == 0 ->
  squareCornerPath ctx i (roundRectPath ctx x y w h radii).
Proof.
  intros Hi Hz.
  rewrite <- (app_nil_r (roundRectPath ctx x y w h radii)).
  apply rounded_path_square; auto.
Qed.

Ltac square_path Hi Hz :=
  first [ apply rounded_path_square_open | apply rounded_path_square ];
  first [ exact Hi | exact Hz
        | apply changeBorderRadius_zero; exact Hz
        | right; reflexivity ].

Ltac square_or_glyph Hi Hz :=
  first [ right; reflexivity | left; square_path Hi Hz ].

Lemma subpaths_of_border_trace (ctx : CanvasRenderingContext2D)
  (left top width height : Q) (backgroundColor : string) (borderWidth : Q)
  (outerBorderRadius : Radii) (borderColor textColor : string)
  (draggable closeButton : bool) (iconColor : option string) (i : nat) :
  let trace :=
    drawRoundRectWithBorder ctx left top width height backgroundColor
      borderWidth outerBorderRadius borderColor textColor draggable
      closeButton iconColor in
  (i < 4)%nat ->
  radius_at outerBorderRadius i == 0 ->
  (exists first rest,
     subpaths trace = first :: rest /\ squareCornerPath ctx i first)
  /\ (forall p, In p (subpaths trace) ->
                squareCornerPath ctx i p \/ count is_corner_op p = 0%nat).
Proof.
  intros trace Hi Hz.
  unfold trace, subpaths, drawRoundRectWithBorder.
  cbn [app subpathsFrom is_path_op].
  destruct (noBorder backgroundColor borderWidth borderColor).
  - rewrite subpathsFrom_drawRoundRect.
    cbn [app subpathsFrom is_path_op tl]. split.
    + eexists _, _. split; [reflexivity|]. square_path Hi Hz.
    + intros p [<-|[]]. square_or_glyph Hi Hz.
  - cbv zeta. rewrite subpathsFrom_drawRoundRect. cbn [tl].
    destruct (String.eqb backgroundColor "transparent"); cbn [negb].
    + destruct (String.eqb borderColor "transparent");
        cbn [negb app subpathsFrom is_path_op]; split;
        try (eexists _, _; split; [reflexivity|]; square_path Hi Hz);
        intros p Hin; cbn [In] in Hin;
        repeat (destruct Hin as [<-|Hin]; [square_or_glyph Hi Hz|]);
        contradiction.
    + rewrite <- !app_assoc. rewrite subpathsFrom_drawRoundRect.
      destruct draggable, closeButton,
        (String.eqb borderColor "transparent");
        cbn [negb app subpathsFrom is_path_op drawDragHandle drawCloseButton
             flat_map];
        split;
        try (eexists _, _; split; [reflexivity|]; square_path Hi Hz);
        intros p Hin; cbn [In] in Hin;
        repeat (destruct Hin as [<-|Hin]; [square_or_glyph Hi Hz|]);
        contradiction.
Qed.

(** C10.  [changeBorderRadius] leaves a radius of 0 at 0 and adds the
    offset to every other radius.  Hence, when corner [i] of the outer
    rectangle is square, every path that [drawRoundRectWithBorder] builds
    is either the path of a rounded rectangle whose corner [i] is square
    (the outer one, the one inset by half the border, the one inset by the
    full border, open or closed for the stroke) or a glyph path without any
    corner call; the first path built is always such a rounded rectangle.
    With the native [roundRect] a square corner is a radius 0 in the call;
    without it the line to corner [i] ends on the corner and no arc follows
    it, and no arc of radius 0 is ever traced. *)
Theorem square_corners_stay_square
  (ctx : CanvasRenderingContext2D) (left top width height : Q)
  (backgroundColor : string) (borderWidth : Q) (outerBorderRadius : Radii)
  (borderColor textColor : string) (draggable closeButton : bool)
  (iconColor : option string) (i : nat) :
  let trace :=
    drawRoundRectWithBorder ctx left top width height backgroundColor
      borderWidth outerBorderRadius borderColor textColor draggable
      closeButton iconColor in
  (i < 4)%nat ->
  radius_at outerBorderRadius i == 0 ->
  (forall offset,
     radius_at (changeBorderRadius outerBorderRadius offset) i == 0)
  /\ (forall offset j,
        ~ radius_at outerBorderRadius j == 0 ->
        radius_at (changeBorderRadius outerBorderRadius offset) j
        == radius_at outerBorderRadius j + offset)
  /\ (exists first rest,
        subpaths trace = first :: rest /\ squareCornerPath ctx i first)
  /\ (forall path,
        In path (subpaths trace) ->
        squareCornerPath ctx i path \/ count is_corner_op path = 0%nat)
  /\ (forall x y w h rs,
        In (RoundRect x y w h rs) trace -> radius_at rs i == 0)
  /\ (forall x1 y1 x2 y2 r, In (ArcTo x1 y1 x2 y2 r) trace -> ~ r == 0).
Proof.
  intros trace Hi Hsquare.
  destruct (subpaths_of_border_trace ctx left top width height
              backgroundColor borderWidth outerBorderRadius borderColor
              textColor draggable closeButton iconColor i Hi Hsquare)
    as (Hfirst & Hall).
  split; [|split; [|split; [|split; [|split]]]].
  - intro offset. now apply changeBorderRadius_zero.
  - intros offset j. apply changeBorderRadius_nonzero.
  - exact Hfirst.
  - exact Hall.
  - intros x y w h rs Hin.
    apply in_drawRoundRectWithBorder_RoundRect in Hin.
    destruct Hin as [E|[E|E]]; subst rs;
      [exact Hsquare | now apply changeBorderRadius_zero ..].
  - intros x1 y1 x2 y2 r.
    apply in_drawRoundRectWithBorder_ArcTo.
Qed.

Lemma square_corners_stay_square_witness :
  (1 < 4)%nat
  /\ radius_at [4; 0; 0; 4] 1 == 0
  /\ exists first rest,
       subpaths (drawRoundRectWithBorder legacyCtx 0 0 100 20 "#131722" 2
                   [4; 0; 0; 4] "#2962FF" "#FFFFFF" true true None)
       = first :: rest
       /\ squareCornerPath legacyCtx 1 first.
Proof.
  assert (Hi : (1 < 4)%nat) by lia.
  assert (Hsquare : radius_at [4; 0; 0; 4] 1 == 0) by reflexivity.
  split; [exact Hi|]. split; [exact Hsquare|].
  exact (proj1 (proj2 (proj2
    (square_corners_stay_square legacyCtx 0 0 100 20 "#131722" 2
       [4; 0; 0; 4] "#2962FF" "#FFFFFF" true true None 1 Hi Hsquare)))).
Defined.

(** ** draw *)

Lemma length_zero_iff_empty (s : string) :
  Nat.eqb (String.length s) 0 = true <-> s = ""%string.
Proof.
  destruct s; simpl; split; intro H; try reflexivity; discriminate H.
Qed.

Section DrawFacts.

Variable drawRoundRectWithInnerBorder :
  CanvasRenderingContext2D -> Q -> Q -> Q -> Q -> string -> Q -> Radii ->
  string -> string -> bool -> bool -> option string -> list CanvasOp.

Variable this : PriceAxisViewRenderer.
Variable target : CanvasRenderingTarget2D.
Variable rendererOptions : PriceAxisViewRendererOptions.
Variable textWidthCache : TextWidthCache.
Variable align : Align.
Variable draggable : bool.
Variable closeButton : bool.
Variable iconColor : option string.

Lemma draw_skipped :
  visible (_data this) = false \/ text (_data this) = ""%string ->
  draw drawRoundRectWithInnerBorder this target rendererOptions
       textWidthCache align draggable closeButton iconColor
  = (this, []).
Proof.
  intro H. unfold draw.
  destruct H as [H|H]; rewrite H; [reflexivity|].
  now rewrite orb_true_r.
Qed.

Lemma draw_performed :
  visible (_data this) = true -> text (_data this) <> ""%string ->
  let geom := _calculateGeometry (withIconColor this iconColor) target
                rendererOptions textWidthCache align closeButton in
  draw drawRoundRectWithInnerBorder this target rendererOptions
       textWidthCache align draggable closeButton iconColor
  = (withIconColor this iconColor,
     [ UseBitmapCoordinateSpace
         (drawBitmap drawRoundRectWithInnerBorder this target rendererOptions
                     draggable closeButton iconColor geom);
       UseMediaCoordinateSpace
         (drawMedia this rendererOptions closeButton iconColor geom) ]).
Proof.
  intros Hv Ht geom. unfold draw. rewrite Hv.
  destruct (Nat.eqb (String.length (text (_data this))) 0) eqn:E.
  - apply length_zero_iff_empty in E. contradiction.
  - reflexivity.
Qed.

End DrawFacts.

(** C2, as amended.  When the label is not visible or its text is empty
    (with or without an icon colour), [draw] makes no call on the target
    and leaves the renderer as it is.  [height] returns 0 for a label that
    is not visible; for a visible label it returns the font size plus the
    top and bottom paddings, whatever the text. *)
Theorem draw_noop_and_height
  (drawRoundRectWithInnerBorder :
     CanvasRenderingContext2D -> Q -> Q -> Q -> Q -> string -> Q -> Radii ->
     string -> string -> bool -> bool -> option string -> list CanvasOp)
  (this : PriceAxisViewRenderer) (target : CanvasRenderingTarget2D)
  (rendererOptions : PriceAxisViewRendererOptions)
  (textWidthCache : TextWidthCache) (align : Align)
  (draggable closeButton useSecondLine : bool) (iconColor : option string) :
  (visible (_data this) = false \/ text (_data this) = ""%string ->
   draw drawRoundRectWithInnerBorder this target rendererOptions
        textWidthCache align draggable closeButton iconColor
   = (this, []))
  /\ (visible (_data this) = false ->
      height_ this rendererOptions useSecondLine = 0)
  /\ (visible (_data this) = true ->
      height_ this rendererOptions useSecondLine
      = fontSize rendererOptions + paddingTop rendererOptions
        + paddingBottom rendererOptions).
Proof.
  split; [apply draw_skipped|].
  unfold height_. split; intro H; now rewrite H.
Qed.

Lemma draw_noop_and_height_witness :
  let this := sampleRenderer "" true true 0 0 in
  text (_data this) = ""%string
  /\ draw drawRoundRectWithBorder this (sampleScope 2 2) sampleOptions
          sampleCache AlignRight false false None
     = (this, []).
Proof.
  split; [reflexivity|].
  apply (draw_noop_and_height drawRoundRectWithBorder
           (sampleRenderer "" true true 0 0) (sampleScope 2 2) sampleOptions
           sampleCache AlignRight false false false None).
  right. reflexivity.
Defined.

(** C2 as stated fails for [height] on a visible label with empty text and
    no icon colour: [draw] makes no call, but [height] still reports
    12 + 2 + 2 = 16. *)
Lemma height_of_visible_empty_label :
  let this := sampleRenderer "" true true 0 0 in
  text (_data this) = ""%string
  /\ _iconColor this = None
  /\ snd (draw drawRoundRectWithBorder this (sampleScope 2 2) sampleOptions
               sampleCache AlignRight false false None) = []
  /\ height_ this sampleOptions false == 16
  /\ ~ height_ this sampleOptions false == 0.
Proof.
  repeat split; vm_compute; discriminate.
Qed.





(** * Further properties of the geometry engine *)

Lemma Math_round_bounds (x : Q) :
  x - (1 # 2) < inject_Z (Math_round x)
  /\ inject_Z (Math_round x) <= x + (1 # 2).
Proof.
  unfold Math_round.
  pose proof (Qfloor_le (x + (1 # 2))) as Hle.
  pose proof (Qlt_floor (x + (1 # 2))) as Hlt.
  rewrite inject_Z_plus in Hlt.
  change (inject_Z 1) with 1 in Hlt.
  split; lra.
Qed.

Lemma same_parity_difference (a b : Z) :
  Z.even a = Z.even b -> exists k, (b - a = 2 * k)%Z.
Proof.
  intro H.
  assert (He : Z.even (b - a) = true).
  { rewrite Z.even_sub, H. now destruct (Z.even b). }
  apply Z.even_spec in He. exact He.
Qed.

Lemma label_top_centres_tick
  (this : PriceAxisViewRenderer) (scope : BitmapCoordinatesRenderingScope)
  (rendererOptions : PriceAxisViewRendererOptions)
  (textWidthCache : TextWidthCache) (align : Align) (closeButton : bool) :
  1 <= verticalPixelRatio scope ->
  0 <= totalHeight this rendererOptions ->
  let gb := bitmap (_calculateGeometry this scope rendererOptions
                      textWidthCache align closeButton) in
  (2 * Bitmap.yTop gb + Bitmap.totalHeight gb
   = 2 * Bitmap.yMid gb + Bitmap.tickHeight gb)%Z.
Proof.
  intros Hr Hh gb.
  assert (Hrounded :
    (0 <= Math_round (totalHeight this rendererOptions
                      * verticalPixelRatio scope))%Z).
  { apply Math_round_nonneg, Qmult_le_0_compat; [exact Hh|].
    apply Qle_trans with 1; [discriminate | exact Hr]. }
  destruct (totalHeightBitmap_cases this scope rendererOptions Hrounded)
    as (_ & _ & Hpar).
  destruct (same_parity_difference _ _ Hpar) as (k & Hk).
  assert (Htop : Bitmap.yTop gb = (Bitmap.yMid gb + k)%Z).
  { change (Bitmap.yTop gb)
      with (Qfloor (inject_Z (yMidBitmap this scope)
                    + inject_Z (tickHeightBitmap scope) / 2
                    - inject_Z (totalHeightBitmap this scope rendererOptions)
                      / 2)).
    change (Bitmap.yMid gb) with (yMidBitmap this scope).
    assert (E : inject_Z (yMidBitmap this scope)
                + inject_Z (tickHeightBitmap scope) / 2
                - inject_Z (totalHeightBitmap this scope rendererOptions) / 2
                == inject_Z (yMidBitmap this scope + k)).
    { assert (Hq : inject_Z (tickHeightBitmap scope)
                   - inject_Z (totalHeightBitmap this scope rendererOptions)
                   == 2 * inject_Z k).
      { transitivity (inject_Z (tickHeightBitmap scope
                                - totalHeightBitmap this scope
                                    rendererOptions)).
        - unfold Z.sub. rewrite inject_Z_plus, inject_Z_opp. ring.
        - rewrite Hk, inject_Z_mult. reflexivity. }
      rewrite inject_Z_plus. unfold Qdiv. change (/ 2) with (1 # 2).
      lra. }
    rewrite (Qfloor_comp _ _ E). apply Qfloor_Z. }
  change (Bitmap.totalHeight gb)
    with (totalHeightBitmap this scope rendererOptions) in *.
  change (Bitmap.tickHeight gb) with (tickHeightBitmap scope) in *.
  lia.
Qed.

(** The tick is vertically centred in the label body: for a vertical
    ratio of at least 1 and a non-negative logical height, the gap between
    the label's top and the tick's top equals the gap between the tick's
    bottom and the label's bottom, the [floor] in the top's computation
    losing nothing. *)
Theorem tick_centred_in_label
  (this : PriceAxisViewRenderer) (scope : BitmapCoordinatesRenderingScope)
  (rendererOptions : PriceAxisViewRendererOptions)
  (textWidthCache : TextWidthCache) (align : Align) (closeButton : bool) :
  1 <= verticalPixelRatio scope ->
  0 <= totalHeight this rendererOptions ->
  let gb := bitmap (_calculateGeometry this scope rendererOptions
                      textWidthCache align closeButton) in
  (2 * Bitmap.yTop gb + Bitmap.totalHeight gb
   = 2 * Bitmap.yMid gb + Bitmap.tickHeight gb)%Z
  /\ (Bitmap.yMid gb - Bitmap.yTop gb
      = Bitmap.yBottom gb - (Bitmap.yMid gb + Bitmap.tickHeight gb))%Z.
Proof.
  intros Hr Hh gb.
  pose proof (label_top_centres_tick this scope rendererOptions
                textWidthCache align closeButton Hr Hh) as Hcentre.
  cbv zeta in Hcentre. fold gb in Hcentre.
  change (Bitmap.yBottom gb) with (Bitmap.yTop gb + Bitmap.totalHeight gb)%Z.
  lia.
Qed.

Lemma tick_centred_in_label_witness :
  let gb := bitmap (_calculateGeometry (sampleRenderer "12.50" true true 0 0)
                      (sampleScope (3 # 2) (3 # 2)) sampleOptions sampleCache
                      AlignRight false) in
  (Bitmap.yMid gb - Bitmap.yTop gb
   = Bitmap.yBottom gb - (Bitmap.yMid gb + Bitmap.tickHeight gb))%Z.
Proof.
  apply (tick_centred_in_label (sampleRenderer "12.50" true true 0 0)
           (sampleScope (3 # 2) (3 # 2)) sampleOptions sampleCache
           AlignRight false).
  - unfold Qle; simpl; lia.
  - unfold Qle; simpl; lia.
Defined.

(** Rounding loses at most a pixel: the bitmap total height is the rounded
    scaled height or one more, whatever the input, so it stays within
    (-1/2, 3/2] of the exact scaled height; the bitmap total width stays
    within (-1/2, 1/2] of the exact scaled width; the tick is at least one
    pixel high and the separator thickness is never negative. *)
Theorem bitmap_sizes_track_logical_sizes
  (this : PriceAxisViewRenderer) (scope : BitmapCoordinatesRenderingScope)
  (rendererOptions : PriceAxisViewRendererOptions)
  (textWidthCache : TextWidthCache) (align : Align) (closeButton : bool) :
  let gb := bitmap (_calculateGeometry this scope rendererOptions
                      textWidthCache align closeButton) in
  let exactHeight :=
    totalHeight this rendererOptions * verticalPixelRatio scope in
  let exactWidth :=
    totalWidth this scope rendererOptions textWidthCache closeButton
    * horizontalPixelRatio scope in
  (exactHeight - (1 # 2) < inject_Z (Bitmap.totalHeight gb)
   /\ inject_Z (Bitmap.totalHeight gb) <= exactHeight + (3 # 2))
  /\ (exactWidth - (1 # 2) < inject_Z (Bitmap.totalWidth gb)
      /\ inject_Z (Bitmap.totalWidth gb) <= exactWidth + (1 # 2))
  /\ (1 <= Bitmap.tickHeight gb)%Z
  /\ (0 <= Bitmap.horzBorder gb)%Z.
Proof.
  intros gb exactHeight exactWidth.
  split; [|split; [|split]].
  - change (Bitmap.totalHeight gb)
      with (totalHeightBitmap this scope rendererOptions).
    unfold totalHeightBitmap. fold exactHeight.
    destruct (Math_round_bounds exactHeight) as (Hlo & Hhi).
    destruct (negb _).
    + rewrite inject_Z_plus. change (inject_Z 1) with 1. split; lra.
    + split; lra.
  - change (Bitmap.totalWidth gb)
      with (totalWidthBitmap this scope rendererOptions textWidthCache
                             closeButton).
    unfold totalWidthBitmap. fold exactWidth.
    apply Math_round_bounds.
  - apply tickHeightBitmap_pos.
  - change (Bitmap.horzBorder gb)
      with (horzBorderBitmap this scope rendererOptions).
    unfold horzBorderBitmap, Math_max.
    destruct (negb _); lia.
Qed.

(** Left and right alignment mirror each other in bitmap space: for the
    same label, scope and options the inside, outside and tick X
    coordinates of the right-aligned record are the bitmap width minus
    those of the left-aligned record, and all vertical fields coincide.
    The media-space text offsets add up to the media width minus the
    separator thickness, so the text positions mirror each other only
    without a separator. *)
Theorem alignment_mirror
  (this : PriceAxisViewRenderer) (scope : BitmapCoordinatesRenderingScope)
  (rendererOptions : PriceAxisViewRendererOptions)
  (textWidthCache : TextWidthCache) (closeButton : bool) :
  let gr := _calculateGeometry this scope rendererOptions textWidthCache
                               AlignRight closeButton in
  let gl := _calculateGeometry this scope rendererOptions textWidthCache
                               AlignLeft closeButton in
  let W := width (bitmapSize scope) in
  let separator :=
    if separatorVisible (_data this) then borderSize rendererOptions else 0 in
  Bitmap.xInside (bitmap gr) == W - Bitmap.xInside (bitmap gl)
  /\ Bitmap.xOutside (bitmap gr) == W - Bitmap.xOutside (bitmap gl)
  /\ Bitmap.xTick (bitmap gr) == W - Bitmap.xTick (bitmap gl)
  /\ Bitmap.yTop (bitmap gr) = Bitmap.yTop (bitmap gl)
  /\ Bitmap.yMid (bitmap gr) = Bitmap.yMid (bitmap gl)
  /\ Bitmap.yBottom (bitmap gr) = Bitmap.yBottom (bitmap gl)
  /\ Bitmap.totalWidth (bitmap gr) = Bitmap.totalWidth (bitmap gl)
  /\ Bitmap.totalHeight (bitmap gr) = Bitmap.totalHeight (bitmap gl)
  /\ Media.xText (media gr) + Media.xText (media gl)
     == width (mediaSize scope) - separator.
Proof.
  intros gr gl W separator.
  unfold gr, gl, W, separator, _calculateGeometry.
  cbn [bitmap media Bitmap.xInside Bitmap.xOutside Bitmap.xTick Bitmap.yTop
       Bitmap.yMid Bitmap.yBottom Bitmap.totalWidth Bitmap.totalHeight
       Media.xText].
  fold (horzBorder this rendererOptions).
  repeat split; ring.
Qed.

(** * Further properties of [draw] *)

(** The rectangle that [draw] hands to the label-body helper runs from the
    outside edge to the inside edge of the record, between the label's top
    and bottom, and its two corners on the inside edge are square: corners
    right-top and right-bottom on a right-aligned label, left-top and
    left-bottom on a left-aligned one.  The inside edge itself lies one
    border thickness away from the surface edge. *)
Theorem label_body_spans_inside_to_outside
  (this : PriceAxisViewRenderer) (target : CanvasRenderingTarget2D)
  (rendererOptions : PriceAxisViewRendererOptions)
  (textWidthCache : TextWidthCache) (align : Align)
  (draggable closeButton : bool) (iconColor : option string)
  (labelBackgroundColor labelBorderColor : string) :
  let geom := _calculateGeometry (withIconColor this iconColor) target
                rendererOptions textWidthCache align closeButton in
  let gb := bitmap geom in
  exists l w radii,
    drawLabelBody recordBody this target draggable closeButton iconColor geom
                  labelBackgroundColor labelBorderColor
    = [RoundRect l (inject_Z (Bitmap.yTop gb)) w
                 (inject_Z (Bitmap.yBottom gb - Bitmap.yTop gb)) radii]
    /\ match align with
       | AlignRight =>
           l == Bitmap.xOutside gb /\ l + w == Bitmap.xInside gb
           /\ Bitmap.xInside gb
              == width (bitmapSize target) - inject_Z (Bitmap.horzBorder gb)
           /\ radius_at radii 1 = 0 /\ radius_at radii 2 = 0
       | AlignLeft =>
           l == Bitmap.xInside gb /\ l + w == Bitmap.xOutside gb
           /\ Bitmap.xInside gb == inject_Z (Bitmap.horzBorder gb)
           /\ radius_at radii 0 = 0 /\ radius_at radii 3 = 0
       end.
Proof.
  intros geom gb.
  assert (Hh : (Bitmap.yBottom gb - Bitmap.yTop gb)%Z = Bitmap.totalHeight gb).
  { change (Bitmap.yBottom gb)
      with (Bitmap.yTop gb + Bitmap.totalHeight gb)%Z. lia. }
  rewrite Hh.
  destruct align.
  - exists (Bitmap.xInside gb), (inject_Z (Bitmap.totalWidth gb)),
      [0; Bitmap.radius gb; Bitmap.radius gb; 0].
    split; [reflexivity|].
    repeat split; reflexivity.
  - exists (Bitmap.xOutside gb), (inject_Z (Bitmap.totalWidth gb)),
      [Bitmap.radius gb; 0; 0; Bitmap.radius gb].
    split; [reflexivity|].
    split; [reflexivity|]. split.
    + unfold gb, geom, _calculateGeometry.
      cbn [bitmap Bitmap.xOutside Bitmap.xInside Bitmap.totalWidth]. ring.
    + repeat split; reflexivity.
Qed.

(** The text is centred on the tick: on a drawn label, for a vertical ratio
    of at least 1 and a non-negative logical height, the media callback
    ends with its only [fillText], whose Y coordinate is the tick's bitmap
    centre [yMid + tickHeight / 2] brought back to media space, plus the
    text metrics' correction, minus 1. *)
Theorem text_baseline_on_tick_centre
  (drawRoundRectWithInnerBorder :
     CanvasRenderingContext2D -> Q -> Q -> Q -> Q -> string -> Q -> Radii ->
     string -> string -> bool -> bool -> option string -> list CanvasOp)
  (this : PriceAxisViewRenderer) (target : CanvasRenderingTarget2D)
  (rendererOptions : PriceAxisViewRendererOptions)
  (textWidthCache : TextWidthCache) (align : Align)
  (draggable closeButton : bool) (iconColor : option string) :
  visible (_data this) = true ->
  text (_data this) <> ""%string ->
  1 <= verticalPixelRatio target ->
  0 <= totalHeight this rendererOptions ->
  let g := _calculateGeometry (withIconColor this iconColor) target
             rendererOptions textWidthCache align closeButton in
  exists pre s x y,
    mediaOps (snd (draw drawRoundRectWithInnerBorder this target
                        rendererOptions textWidthCache align draggable
                        closeButton iconColor))
    = pre ++ [FillText s x y]
    /\ count is_FillText pre = 0%nat
    /\ y == (inject_Z (Bitmap.yMid (bitmap g))
             + inject_Z (Bitmap.tickHeight (bitmap g)) / 2)
            / verticalPixelRatio target
            + Media.textMidCorrection (media g) - 1.
Proof.
  intros Hv Ht Hr Hh g.
  rewrite (draw_performed drawRoundRectWithInnerBorder this target
             rendererOptions textWidthCache align draggable closeButton
             iconColor Hv Ht).
  cbn [snd mediaOps flat_map]. rewrite app_nil_r.
  pose proof (label_top_centres_tick (withIconColor this iconColor) target
                rendererOptions textWidthCache align closeButton Hr Hh)
    as Hcentre.
  cbv zeta in Hcentre. fold g in Hcentre.
  assert (Hy : (Media.yTop (media g) + Media.yBottom (media g)) / 2
               + Media.textMidCorrection (media g) - 1
               == (inject_Z (Bitmap.yMid (bitmap g))
                   + inject_Z (Bitmap.tickHeight (bitmap g)) / 2)
                  / verticalPixelRatio target
                  + Media.textMidCorrection (media g) - 1).
  { assert (Hq : 2 * inject_Z (Bitmap.yTop (bitmap g))
                 + inject_Z (Bitmap.totalHeight (bitmap g))
                 == 2 * inject_Z (Bitmap.yMid (bitmap g))
                    + inject_Z (Bitmap.tickHeight (bitmap g))).
    { rewrite <- !(inject_Z_mult 2), <- !inject_Z_plus, Hcentre.
      reflexivity. }
    assert (Hnz : ~ verticalPixelRatio target == 0) by lra.
    change (Media.yTop (media g))
      with (inject_Z (Bitmap.yTop (bitmap g)) / verticalPixelRatio target).
    change (Media.yBottom (media g))
      with (inject_Z (Bitmap.yTop (bitmap g) + Bitmap.totalHeight (bitmap g))
            / verticalPixelRatio target).
    rewrite inject_Z_plus.
    set (top := inject_Z (Bitmap.yTop (bitmap g))) in *.
    set (total := inject_Z (Bitmap.totalHeight (bitmap g))) in *.
    set (mid := inject_Z (Bitmap.yMid (bitmap g))) in *.
    set (tick := inject_Z (Bitmap.tickHeight (bitmap g))) in *.
    setoid_replace ((top / verticalPixelRatio target
                     + (top + total) / verticalPixelRatio target) / 2)
      with ((2 * top + total) / verticalPixelRatio target / 2)
      by (field; exact Hnz).
    rewrite Hq. field. exact Hnz. }
  unfold drawMedia. fold g.
  destruct (truthy_opt iconColor).
  - eexists [_; _; _; _], _, _, _.
    split; [reflexivity|]. split; [reflexivity | exact Hy].
  - eexists [_; _; _; _], _, _, _.
    split; [reflexivity|]. split; [reflexivity | exact Hy].
Qed.

Lemma text_baseline_on_tick_centre_witness :
  exists pre s x y,
    mediaOps (snd (draw drawRoundRectWithBorder
                        (sampleRenderer "12.50" true true 0 0)
                        (sampleScope 2 2) sampleOptions sampleCache
                        AlignRight false false None))
    = pre ++ [FillText s x y]
    /\ count is_FillText pre = 0%nat
    /\ y == (inject_Z 199 + inject_Z 2 / 2) / 2 + 0 - 1.
Proof.
  apply (text_baseline_on_tick_centre drawRoundRectWithBorder
           (sampleRenderer "12.50" true true 0 0) (sampleScope 2 2)
           sampleOptions sampleCache AlignRight false false None).
  - reflexivity.
  - discriminate.
  - unfold Qle; simpl; lia.
  - unfold Qle; simpl; lia.
Defined.

(** [draw] depends on no icon colour left by an earlier call: the calls it
    makes are the same whatever [_iconColor] the renderer holds, and
    drawing again with the same arguments from the renderer that [draw]
    returned gives the same renderer and the same calls. *)
Theorem draw_forgets_previous_icon
  (drawRoundRectWithInnerBorder :
     CanvasRenderingContext2D -> Q -> Q -> Q -> Q -> string -> Q -> Radii ->
     string -> string -> bool -> bool -> option string -> list CanvasOp)
  (this : PriceAxisViewRenderer) (target : CanvasRenderingTarget2D)
  (rendererOptions : PriceAxisViewRendererOptions)
  (textWidthCache : TextWidthCache) (align : Align)
  (draggable closeButton : bool) (iconColor stale : option string) :
  snd (draw drawRoundRectWithInnerBorder (withIconColor this stale) target
            rendererOptions textWidthCache align draggable closeButton
            iconColor)
  = snd (draw drawRoundRectWithInnerBorder this target rendererOptions
              textWidthCache align draggable closeButton iconColor)
  /\ draw drawRoundRectWithInnerBorder
          (fst (draw drawRoundRectWithInnerBorder this target rendererOptions
                     textWidthCache align draggable closeButton iconColor))
          target rendererOptions textWidthCache align draggable closeButton
          iconColor
     = draw drawRoundRectWithInnerBorder this target rendererOptions
            textWidthCache align draggable closeButton iconColor.
Proof.
  unfold draw. cbn [withIconColor _data].
  destruct (negb (visible (_data this))
            || Nat.eqb (String.length (text (_data this))) 0) eqn:E.
  - cbn [fst snd]. rewrite E. split; reflexivity.
  - cbn [fst snd withIconColor _data]. rewrite E. split; reflexivity.
Qed.

(** Layout and content agree on the icon mode: on a drawn label, whatever
    icon colour an earlier call left in the renderer, the content width
    behind the bitmap total width is 13 and the media callback prints the
    icon glyph when the icon colour passed to this call is a non-empty
    string; otherwise the content width is the measured text width rounded
    up and the media callback prints the label's text. *)
Theorem icon_mode_of_this_call
  (drawRoundRectWithInnerBorder :
     CanvasRenderingContext2D -> Q -> Q -> Q -> Q -> string -> Q -> Radii ->
     string -> string -> bool -> bool -> option string -> list CanvasOp)
  (this : PriceAxisViewRenderer) (target : CanvasRenderingTarget2D)
  (rendererOptions : PriceAxisViewRendererOptions)
  (textWidthCache : TextWidthCache) (align : Align)
  (draggable closeButton : bool) (iconColor : option string) :
  visible (_data this) = true ->
  text (_data this) <> ""%string ->
  let d := _data this in
  let iconMode := truthy_opt iconColor in
  let contentWidth :=
    if iconMode then 13%Z
    else Qceiling (measureText textWidthCache (context target) (text d)) in
  let calls := snd (draw drawRoundRectWithInnerBorder this target
                         rendererOptions textWidthCache align draggable
                         closeButton iconColor) in
  exists bitmapTrace pre x y,
    calls = [ UseBitmapCoordinateSpace bitmapTrace;
              UseMediaCoordinateSpace
                (pre ++ [FillText (if iconMode then "" else text d)
                                  x y]) ]
    /\ Datatypes.length pre = 4%nat
    /\ Bitmap.totalWidth
         (bitmap (_calculateGeometry (withIconColor this iconColor) target
                    rendererOptions textWidthCache align closeButton))
       = Math_round
           ((borderSize rendererOptions + paddingInner rendererOptions
             + paddingOuter rendererOptions + inject_Z contentWidth
             + tickSize this rendererOptions
             + (if closeButton then 16 else 0))
            * horizontalPixelRatio target).
Proof.
  intros Hv Ht d iconMode contentWidth calls.
  unfold calls.
  rewrite (draw_performed drawRoundRectWithInnerBorder this target
             rendererOptions textWidthCache align draggable closeButton
             iconColor Hv Ht).
  cbn [snd]. unfold drawMedia, contentWidth, iconMode, d.
  assert (Hwidth :
    textWidth (withIconColor this iconColor) target textWidthCache
    = if truthy_opt iconColor then 13%Z
      else Qceiling (measureText textWidthCache (context target)
                                 (text (_data this)))).
  { unfold textWidth. cbn [withIconColor _iconColor _data].
    destruct (truthy_opt iconColor); reflexivity. }
  change (Bitmap.totalWidth
            (bitmap (_calculateGeometry (withIconColor this iconColor) target
                       rendererOptions textWidthCache align closeButton)))
    with (Math_round
            ((borderSize rendererOptions + paddingInner rendererOptions
              + paddingOuter rendererOptions
              + inject_Z (textWidth (withIconColor this iconColor) target
                                    textWidthCache)
              + tickSize this rendererOptions
              + (if closeButton then 16 else 0))
             * horizontalPixelRatio target)).
  rewrite Hwidth.
  destruct (truthy_opt iconColor).
  - lazymatch goal with
    | |- exists b pre x y,
           [UseBitmapCoordinateSpace ?B;
            UseMediaCoordinateSpace [?a1; ?a2; ?a3; ?a4; FillText _ ?xx ?yy]]
           = _ /\ _ =>
        exists B, [a1; a2; a3; a4], xx, yy
    end.
    repeat split.
  - lazymatch goal with
    | |- exists b pre x y,
           [UseBitmapCoordinateSpace ?B;
            UseMediaCoordinateSpace [?a1; ?a2; ?a3; ?a4; FillText _ ?xx ?yy]]
           = _ /\ _ =>
        exists B, [a1; a2; a3; a4], xx, yy
    end.
    repeat split.
Qed.

Lemma icon_mode_of_this_call_witness :
  let this := sampleRenderer "12.50" true true 0 0 in
  exists bitmapTrace pre x y,
    snd (draw drawRoundRectWithBorder this (sampleScope 2 2) sampleOptions
              sampleCache AlignRight false false (Some "#FF9800"%string))
    = [ UseBitmapCoordinateSpace bitmapTrace;
        UseMediaCoordinateSpace (pre ++ [FillText "" x y]) ].
Proof.
  destruct (icon_mode_of_this_call drawRoundRectWithBorder
              (sampleRenderer "12.50" true true 0 0) (sampleScope 2 2)
              sampleOptions sampleCache AlignRight false false
              (Some "#FF9800"%string) eq_refl)
    as (b & pre & x & y & Hcalls & _).
  - discriminate.
  - exists b, pre, x, y. exact Hcalls.
Defined.

(** * Further properties of the canvas helpers *)

(** [fillRectInnerBorder] paints the border band and nothing else: for a
    border width [b] with [0 <= b], [2 * b <= width] and [2 * b <= height],
    a point lies in one of the four filled rectangles exactly when it lies
    in the target rectangle and not strictly inside the rectangle inset by
    [b] on every side. *)
Theorem fillRectInnerBorder_covers_border_band
  (x y width height borderWidth px py : Q) :
  0 <= borderWidth ->
  2 * borderWidth <= width ->
  2 * borderWidth <= height ->
  Exists (covers px py) (fillRectInnerBorder x y width height borderWidth)
  <-> ((x <= px /\ px <= x + width) /\ (y <= py /\ py <= y + height))
      /\ ~ ((x + borderWidth < px /\ px < x + width - borderWidth)
            /\ (y + borderWidth < py /\ py < y + height - borderWidth)).
Proof.
  intros Hb Hw Hh. unfold fillRectInnerBorder.
  rewrite !Exists_cons, Exists_nil. unfold covers.
  split.
  - intros [H|[H|[H|[H|[]]]]]; (split; [|intro Hin]); lra.
  - intros (((Hx1 & Hx2) & (Hy1 & Hy2)) & Hout).
    destruct (Qlt_le_dec (x + borderWidth) px) as [Hl|Hl];
      [|right; right; left; lra].
    destruct (Qlt_le_dec px (x + width - borderWidth)) as [Hr|Hr];
      [|right; right; right; left; lra].
    destruct (Qlt_le_dec (y + borderWidth) py) as [Ht|Ht];
      [|left; lra].
    destruct (Qlt_le_dec py (y + height - borderWidth)) as [Hbt|Hbt];
      [|right; left; lra].
    exfalso. apply Hout. lra.
Qed.

Lemma fillRectInnerBorder_covers_border_band_witness :
  Exists (covers 1 5) (fillRectInnerBorder 0 0 10 10 2)
  /\ ~ Exists (covers 5 5) (fillRectInnerBorder 0 0 10 10 2).
Proof.
  assert (H0 : 0 <= 2) by (unfold Qle; simpl; lia).
  assert (H1 : 2 * 2 <= 10) by (unfold Qle; simpl; lia).
  split.
  - apply (fillRectInnerBorder_covers_border_band 0 0 10 10 2 1 5 H0 H1 H1).
    split; [lra|]. intro H. lra.
  - intro H.
    apply (fillRectInnerBorder_covers_border_band 0 0 10 10 2 5 5 H0 H1 H1)
      in H.
    destruct H as (_ & Hn). apply Hn. lra.
Defined.

(** [drawRoundRect] only builds a path: it starts a fresh path, paints
    nothing and leaves every style property as it was.  With the native
    method the path is the one [roundRect] call with the radii as given;
    without it the path has four line segments and one arc for each of the
    four corners whose radius is not 0. *)
Theorem drawRoundRect_only_builds_a_path
  (ctx : CanvasRenderingContext2D) (x y w h r0 r1 r2 r3 : Q)
  (s : SurfaceState) :
  let radii := [r0; r1; r2; r3] in
  let ops := drawRoundRect ctx x y w h radii in
  hd_error ops = Some BeginPath
  /\ Forall (fun op => is_path_op op = true) (tl ops)
  /\ count is_ClosePath ops = 0%nat
  /\ run ops s = s
  /\ (roundRect ctx = true -> ops = [BeginPath; RoundRect x y w h radii])
  /\ (roundRect ctx = false ->
      count is_LineTo ops = 4%nat
      /\ count is_ArcTo ops = nonzeroRadii radii
      /\ Datatypes.length ops = (5 + nonzeroRadii radii)%nat).
Proof.
  intros radii ops.
  destruct (drawRoundRect_shape ctx x y w h radii) as (Hshape & Hpath).
  split; [unfold ops; now rewrite Hshape|].
  split; [exact Hpath|].
  split; [apply count_drawRoundRect; auto with canvas|].
  split.
  - unfold ops, drawRoundRect, radii, radius_at.
    destruct (roundRect ctx); [now destruct s|].
    cbn [nth].
    destruct (Qeq_bool r0 0), (Qeq_bool r1 0), (Qeq_bool r2 0),
      (Qeq_bool r3 0); now destruct s.
  - unfold ops, drawRoundRect, radii, radius_at, nonzeroRadii.
    split; intro Hn; rewrite Hn; [reflexivity|].
    cbn [nth filter].
    destruct (Qeq_bool r0 0), (Qeq_bool r1 0), (Qeq_bool r2 0),
      (Qeq_bool r3 0); repeat split.
Qed.

Lemma drawRoundRect_only_builds_a_path_witness :
  count is_ArcTo (drawRoundRect {| roundRect := false |} 0 0 100 20
                                [4; 0; 0; 4]) = 2%nat.
Proof.
  apply (drawRoundRect_only_builds_a_path {| roundRect := false |}
           0 0 100 20 4 0 0 4
           {| current :=
                {| fillStyle := Color "#000000"; strokeStyle := "#000000";
                   lineWidth := 1; globalCompositeOperation := "source-over";
                   ctxFont := "10px sans-serif"; textAlign := "start";
                   textBaseline := "alphabetic" |};
              saved := [] |}).
  reflexivity.
Defined.

(** How many times [drawRoundRectWithBorder] paints, for every combination
    of its arguments: one fill and nothing else when the border is
    suppressed; otherwise no fill for a ["transparent"] background and, for
    any other background, one fill plus one more fill and a stroke for a
    drag handle and a filled rectangle and a stroke for a close button; and
    one further stroke unless the border colour is ["transparent"]. *)
Theorem drawRoundRectWithBorder_paint_counts
  (ctx : CanvasRenderingContext2D) (left top width height : Q)
  (backgroundColor : string) (borderWidth : Q) (outerBorderRadius : Radii)
  (borderColor textColor : string) (draggable closeButton : bool)
  (iconColor : option string) :
  let trace :=
    drawRoundRectWithBorder ctx left top width height backgroundColor
      borderWidth outerBorderRadius borderColor textColor draggable
      closeButton iconColor in
  let suppressed := noBorder backgroundColor borderWidth borderColor in
  let clear := String.eqb backgroundColor "transparent" in
  let handle := if draggable then 1%nat else 0%nat in
  let close := if closeButton then 1%nat else 0%nat in
  count is_Fill trace
  = (if suppressed then 1 else if clear then 0 else 1 + handle)%nat
  /\ count is_FillRect trace
     = (if suppressed then 0 else if clear then 0 else close)%nat
  /\ count is_Stroke trace
     = (if suppressed then 0
        else (if clear then 0 else handle + close)
             + (if String.eqb borderColor "transparent" then 0 else 1))%nat
  /\ count is_Arc trace
     = (if suppressed then 0 else if clear then 0 else 6 * handle)%nat.
Proof.
  intros trace suppressed clear handle close.
  unfold trace, suppressed, clear, handle, close.
  count_paint_ops.
Qed.

(** Drag handle and close button are dropped with the border: when the
    border is suppressed (width 0, empty border colour, or border colour
    equal to the background colour) or the background is ["transparent"],
    the calls made do not depend on [draggable], [closeButton], the text
    colour or the icon colour. *)
Theorem drawRoundRectWithBorder_drops_handles
  (ctx : CanvasRenderingContext2D) (left top width height : Q)
  (backgroundColor : string) (borderWidth : Q) (outerBorderRadius : Radii)
  (borderColor textColor textColor' : string)
  (draggable closeButton : bool) (iconColor iconColor' : option string) :
  noBorder backgroundColor borderWidth borderColor = true
  \/ backgroundColor = "transparent"%string ->
  drawRoundRectWithBorder ctx left top width height backgroundColor
    borderWidth outerBorderRadius borderColor textColor draggable
    closeButton iconColor
  = drawRoundRectWithBorder ctx left top width height backgroundColor
      borderWidth outerBorderRadius borderColor textColor' false false
      iconColor'.
Proof.
  intro H. unfold drawRoundRectWithBorder.
  destruct (noBorder backgroundColor borderWidth borderColor) eqn:E;
    [reflexivity|].
  destruct H as [H|H]; [discriminate H|].
  subst backgroundColor. reflexivity.
Qed.

Lemma drawRoundRectWithBorder_drops_handles_witness :
  drawRoundRectWithBorder nativeCtx 0 0 100 20 "#131722" 0 [4; 0; 0; 4]
    "transparent" "#FFFFFF" true true None
  = drawRoundRectWithBorder nativeCtx 0 0 100 20 "#131722" 0 [4; 0; 0; 4]
      "transparent" "#000000" false false (Some "#FF9800"%string).
Proof.
  apply (drawRoundRectWithBorder_drops_handles nativeCtx 0 0 100 20
           "#131722" 0 [4; 0; 0; 4] "transparent" "#FFFFFF" "#000000"
           true true None (Some "#FF9800"%string)).
  left. reflexivity.
Defined.

(** ** The paths that are painted *)

(** The border pass: with a ["transparent"] background and a border that
    is not suppressed, [drawRoundRectWithBorder] fills nothing and strokes
    exactly one path, whatever path the context held before: the rounded
    rectangle inset by half the border width on every side, closed, with
    the border width as line width and the border colour as stroke
    style. *)
Theorem border_pass_strokes_half_inset_rectangle
  (ctx : CanvasRenderingContext2D) (left top width height : Q)
  (borderWidth : Q) (outerBorderRadius : Radii)
  (borderColor textColor : string) (draggable closeButton : bool)
  (iconColor : option string) (before : list CanvasOp) :
  noBorder "transparent" borderWidth borderColor = false ->
  let trace :=
    drawRoundRectWithBorder ctx left top width height "transparent"
      borderWidth outerBorderRadius borderColor textColor draggable
      closeButton iconColor in
  let halfInset :=
    roundRectPath ctx (left + borderWidth / 2) (top + borderWidth / 2)
      (width - borderWidth) (height - borderWidth)
      (changeBorderRadius outerBorderRadius (- (borderWidth / 2))) in
  trace = [Save; BeginPath] ++ halfInset
          ++ [ SetLineWidth borderWidth; SetStrokeStyle borderColor;
               ClosePath; Stroke; Restore ]
  /\ pathsAt is_Stroke before trace = [halfInset ++ [ClosePath]]
  /\ pathsAt is_Fill before trace = [].
Proof.
  intros Hnb trace halfInset.
  assert (Hbc : (borderColor =? "transparent")%string = false).
  { unfold noBorder in Hnb.
    apply orb_false_iff in Hnb. exact (proj2 Hnb). }
  destruct (drawRoundRect_shape ctx (left + borderWidth / 2)
              (top + borderWidth / 2) (width - borderWidth)
              (height - borderWidth)
              (changeBorderRadius outerBorderRadius (- (borderWidth / 2))))
    as (Hshape & Hpath).
  fold halfInset in Hshape, Hpath.
  assert (Htrace : trace = [Save; BeginPath] ++ halfInset
                           ++ [ SetLineWidth borderWidth;
                                SetStrokeStyle borderColor;
                                ClosePath; Stroke; Restore ]).
  { unfold trace, drawRoundRectWithBorder.
    rewrite Hnb. cbv zeta. rewrite Hshape, Hbc.
    cbn [String.eqb Ascii.eqb Bool.eqb negb app]. reflexivity. }
  split; [exact Htrace|].
  rewrite Htrace. cbn [app pathsAt is_Stroke is_Fill is_path_op].
  rewrite !pathsAt_path_ops
    by (try exact Hpath; auto using is_Stroke_not_path_op,
          is_Fill_not_path_op).
  split; reflexivity.
Qed.

Lemma border_pass_strokes_half_inset_rectangle_witness :
  pathsAt is_Stroke [LineTo 7 7]
    (drawRoundRectWithBorder nativeCtx 0 0 100 20 "transparent" 2
       [4; 0; 0; 4] "#131722" "#FFFFFF" true true None)
  = [ roundRectPath nativeCtx (0 + 2 / 2) (0 + 2 / 2) (100 - 2) (20 - 2)
        (changeBorderRadius [4; 0; 0; 4] (- (2 / 2)))
      ++ [ClosePath] ].
Proof.
  apply (border_pass_strokes_half_inset_rectangle nativeCtx 0 0 100 20 2
           [4; 0; 0; 4] "#131722" "#FFFFFF" true true None [LineTo 7 7]).
  reflexivity.
Defined.

(** The background pass on an opaque background: with a border that is
    not suppressed, a background other than ["transparent"], and neither
    drag handle nor close button, the half-inset path is replaced before
    anything is painted; the one fill paints the rounded rectangle inset by
    the full border width and, when the border colour is not
    ["transparent"], the border stroke runs along that same rectangle. *)
Theorem opaque_pass_paints_full_inset_rectangle
  (ctx : CanvasRenderingContext2D) (left top width height : Q)
  (backgroundColor : string) (borderWidth : Q) (outerBorderRadius : Radii)
  (borderColor textColor : string) (iconColor : option string)
  (before : list CanvasOp) :
  noBorder backgroundColor borderWidth borderColor = false ->
  backgroundColor <> "transparent"%string ->
  let trace :=
    drawRoundRectWithBorder ctx left top width height backgroundColor
      borderWidth outerBorderRadius borderColor textColor false false
      iconColor in
  let fullInset :=
    roundRectPath ctx (left + borderWidth - 0) (top + borderWidth)
      (width - borderWidth * 2) (height - borderWidth * 2)
      (changeBorderRadius outerBorderRadius (- borderWidth)) in
  pathsAt is_Fill before trace = [fullInset]
  /\ pathsAt is_Stroke before trace
     = if String.eqb borderColor "transparent" then []
       else [fullInset ++ [ClosePath]].
Proof.
  intros Hnb Hbg trace fullInset.
  apply String.eqb_neq in Hbg.
  unfold trace, drawRoundRectWithBorder.
  rewrite Hnb, Hbg. cbv zeta. cbn [negb].
  rewrite <- !app_assoc.
  cbn [app pathsAt is_Fill is_Stroke is_path_op].
  rewrite !pathsAt_drawRoundRect
    by auto using is_Stroke_not_path_op, is_Fill_not_path_op.
  fold fullInset.
  destruct (String.eqb borderColor "transparent");
    cbn [negb app pathsAt is_Fill is_Stroke is_path_op]; split; reflexivity.
Qed.

Lemma opaque_pass_paints_full_inset_rectangle_witness :
  pathsAt is_Fill []
    (drawRoundRectWithBorder nativeCtx 0 0 100 20 "#131722" 2 [4; 0; 0; 4]
       "#2962FF" "#FFFFFF" false false None)
  = [ roundRectPath nativeCtx (0 + 2 - 0) (0 + 2) (100 - 2 * 2) (20 - 2 * 2)
        (changeBorderRadius [4; 0; 0; 4] (- (2))) ].
Proof.
  apply (opaque_pass_paints_full_inset_rectangle nativeCtx 0 0 100 20
           "#131722" 2 [4; 0; 0; 4] "#2962FF" "#FFFFFF" None []).
  - reflexivity.
  - discriminate.
Defined.

Lemma in_drawRoundRect_ArcTo_radius (ctx : CanvasRenderingContext2D)
  (x y w h : Q) (radii : Radii) (x1 y1 x2 y2 r : Q) :
  In (ArcTo x1 y1 x2 y2 r) (drawRoundRect ctx x y w h radii) ->
  exists j, r = radius_at radii j /\ ~ r == 0.
Proof.
  unfold drawRoundRect. destruct (roundRect ctx).
  - simpl. intuition discriminate.
  - repeat match goal with
           | |- context [if negb (Qeq_bool ?q 0) then _ else _] =>
               let E := fresh "E" in
               destruct (Qeq_bool q 0) eqn:E; simpl negb; cbv iota
           end;
      simpl; intros Hin;
      repeat match type of Hin with
             | _ \/ _ => destruct Hin as [Hin|Hin]
             | False => destruct Hin
             | LineTo _ _ = _ => discriminate Hin
             | BeginPath = _ => discriminate Hin
             | ArcTo _ _ _ _ _ = ArcTo _ _ _ _ _ =>
                 inversion Hin; subst; clear Hin;
                 eexists; split; [reflexivity|];
                 intro Hz; apply Qeq_bool_iff in Hz; congruence
             end.
Qed.

Lemma in_drawRoundRectWithBorder_ArcTo_radius
  (ctx : CanvasRenderingContext2D) (left top width height : Q)
  (backgroundColor : string) (borderWidth : Q) (outerBorderRadius : Radii)
  (borderColor textColor : string) (draggable closeButton : bool)
  (iconColor : option string) (x1 y1 x2 y2 r : Q) :
  In (ArcTo x1 y1 x2 y2 r)
     (drawRoundRectWithBorder ctx left top width height backgroundColor
        borderWidth outerBorderRadius borderColor textColor draggable
        closeButton iconColor) ->
  exists rs j,
    (rs = outerBorderRadius
     \/ rs = changeBorderRadius outerBorderRadius (- (borderWidth / 2))
     \/ rs = changeBorderRadius outerBorderRadius (- borderWidth))
    /\ r = radius_at rs j /\ ~ r == 0.
Proof.
  unfold drawRoundRectWithBorder. intro Hin. cbv zeta in Hin.
  split_in Hin;
    try (apply in_drawRoundRect_ArcTo_radius in Hin;
         destruct Hin as (j & Hr & Hnz);
         eexists _, j; split; [|split; [exact Hr | exact Hnz]]; now auto);
    simpl in Hin; intuition discriminate.
Qed.

(** No negative radius reaches the context: when the border width is not
    negative and every outer radius is either 0 or at least the border
    width, every radius that [drawRoundRectWithBorder] passes to the native
    [roundRect] is non-negative and, on a context without it, every arc of
    the emulated rounded rectangles has a positive radius. *)
Theorem drawRoundRectWithBorder_radii_nonnegative
  (ctx : CanvasRenderingContext2D) (left top width height : Q)
  (backgroundColor : string) (borderWidth : Q) (outerBorderRadius : Radii)
  (borderColor textColor : string) (draggable closeButton : bool)
  (iconColor : option string) :
  0 <= borderWidth ->
  (forall i, radius_at outerBorderRadius i == 0
             \/ borderWidth <= radius_at outerBorderRadius i) ->
  forall op,
    In op (drawRoundRectWithBorder ctx left top width height backgroundColor
             borderWidth outerBorderRadius borderColor textColor draggable
             closeButton iconColor) ->
    match op with
    | RoundRect _ _ _ _ rs => forall i, 0 <= radius_at rs i
    | ArcTo _ _ _ _ r => 0 < r
    | _ => True
    end.
Proof.
  intros Hb Houter op Hin.
  assert (Hoffset : forall offset i,
    - borderWidth <= offset ->
    0 <= radius_at (changeBorderRadius outerBorderRadius offset) i).
  { intros offset i Hoff.
    destruct (Qeq_dec (radius_at outerBorderRadius i) 0) as [Hz|Hnz].
    - rewrite (changeBorderRadius_zero _ offset _ Hz). lra.
    - rewrite (changeBorderRadius_nonzero _ offset _ Hnz).
      destruct (Houter i) as [Hz|Hge]; [contradiction | lra]. }
  assert (Hhalf : - borderWidth <= - (borderWidth / 2)).
  { unfold Qdiv. change (/ 2) with (1 # 2). lra. }
  assert (Hall : forall rs i,
    rs = outerBorderRadius
    \/ rs = changeBorderRadius outerBorderRadius (- (borderWidth / 2))
    \/ rs = changeBorderRadius outerBorderRadius (- borderWidth) ->
    0 <= radius_at rs i).
  { intros rs i [E|[E|E]]; subst rs.
    - destruct (Houter i) as [Hz|Hge]; [rewrite Hz|]; lra.
    - now apply Hoffset.
    - apply Hoffset. lra. }
  destruct op; try exact I.
  - apply in_drawRoundRectWithBorder_ArcTo_radius in Hin.
    destruct Hin as (rs & j & Hrs & Hr & Hnz).
    pose proof (Hall rs j Hrs) as Hge. rewrite <- Hr in Hge.
    destruct (Qlt_le_dec 0 r) as [Hlt|Hle]; [exact Hlt|].
    exfalso. apply Hnz. lra.
  - intro i. apply in_drawRoundRectWithBorder_RoundRect in Hin.
    now apply Hall.
Qed.

Lemma drawRoundRectWithBorder_radii_nonnegative_witness :
  0 < 4 - 2 / 2.
Proof.
  apply (drawRoundRectWithBorder_radii_nonnegative legacyCtx 0 0 100 20
           "#131722" 2 [4; 0; 0; 4] "#2962FF" "#FFFFFF" false false None)
    with (op := ArcTo (0 + 2 / 2) (0 + 2 / 2) (0 + 2 / 2 + (4 + - (2 / 2)))
                      (0 + 2 / 2) (4 + - (2 / 2))).
  - unfold Qle; simpl; lia.
  - intro i.
    destruct i as [|[|[|[|[|i]]]]]; cbn [radius_at nth];
      solve [left; reflexivity | right; unfold Qle; simpl; lia].
  - vm_compute. auto 20.
Defined.

(** * The custom price line pane view *)

(** After [_updateImpl] the line is visible exactly when the series is
    visible, the price line's [lineVisible] option is set and the price
    line has a Y coordinate; a visible line carries that coordinate and the
    colour, width, style and id of the price line's options.  Whether the
    line was visible before does not matter. *)
Theorem updateImpl_shows_line
  (seriesVisible : bool) (lineOptions : PriceLineOptions.t)
  (yCoord : option Q) (data : HorizontalLine.t) :
  let data' := _updateImpl seriesVisible lineOptions yCoord data in
  HorizontalLine.visible data'
  = seriesVisible && PriceLineOptions.lineVisible lineOptions
    && match yCoord with Some _ => true | None => false end
  /\ (HorizontalLine.visible data' = true ->
      yCoord = Some (HorizontalLine.y data')
      /\ HorizontalLine.color data' = PriceLineOptions.color lineOptions
      /\ HorizontalLine.lineWidth data'
         = PriceLineOptions.lineWidth lineOptions
      /\ HorizontalLine.lineStyle data'
         = PriceLineOptions.lineStyle lineOptions
      /\ HorizontalLine.externalId data' = PriceLineOptions.id lineOptions).
Proof.
  unfold _updateImpl.
  destruct seriesVisible, (PriceLineOptions.lineVisible lineOptions),
    yCoord as [y|]; cbn; split; try reflexivity; intro H;
    try discriminate H; repeat split.
Qed.

Lemma updateImpl_shows_line_witness :
  let data' := _updateImpl true sampleLineOptions (Some 120) sampleLine in
  HorizontalLine.visible data' = true
  /\ HorizontalLine.color data' = "#00FF00"%string
  /\ HorizontalLine.externalId data' = Some "tp-1"%string.
Proof.
  destruct (updateImpl_shows_line true sampleLineOptions (Some 120)
              sampleLine) as (Hvis & Hfields).
  destruct (Hfields eq_refl) as (_ & Hcolor & _ & _ & Hid).
  split; [exact Hvis|]. split; [exact Hcolor | exact Hid].
Defined.

(** A line that [_updateImpl] hides keeps its stale data: when the result
    is not visible, its coordinate, colour, width, style and id are those
    the record held before the call; only the [visible] flag is cleared.
    Updating again with the same inputs changes nothing more. *)
Theorem updateImpl_hidden_line_keeps_fields
  (seriesVisible : bool) (lineOptions : PriceLineOptions.t)
  (yCoord : option Q) (data : HorizontalLine.t) :
  let data' := _updateImpl seriesVisible lineOptions yCoord data in
  (HorizontalLine.visible data' = false ->
   HorizontalLine.y data' = HorizontalLine.y data
   /\ HorizontalLine.color data' = HorizontalLine.color data
   /\ HorizontalLine.lineWidth data' = HorizontalLine.lineWidth data
   /\ HorizontalLine.lineStyle data' = HorizontalLine.lineStyle data
   /\ HorizontalLine.externalId data' = HorizontalLine.externalId data)
  /\ _updateImpl seriesVisible lineOptions yCoord data' = data'.
Proof.
  unfold _updateImpl.
  destruct seriesVisible, (PriceLineOptions.lineVisible lineOptions),
    yCoord as [y|]; cbn; split; try reflexivity; intro H;
    try discriminate H; repeat split.
Qed.

Lemma updateImpl_hidden_line_keeps_fields_witness :
  let data' := _updateImpl false sampleLineOptions (Some 120) sampleLine in
  HorizontalLine.visible data' = false
  /\ HorizontalLine.y data' = 42
  /\ HorizontalLine.externalId data' = Some "old"%string.
Proof.
  destruct (updateImpl_hidden_line_keeps_fields false sampleLineOptions
              (Some 120) sampleLine) as (Hstale & _).
  destruct (Hstale eq_refl) as (Hy & _ & _ & _ & Hid).
  split; [reflexivity|]. split; [exact Hy | exact Hid].
Defined.

(** * The tick stays inside the label *)

Lemma Math_round_monotone (a b : Q) :
  a <= b -> (Math_round a <= Math_round b)%Z.
Proof.
  intro H. unfold Math_round. apply Qfloor_resp_le. lra.
Qed.

(** Horizontally the tick never sticks out of the label body: when the
    border size, the inner and outer paddings, the tick length, the
    measured text width and the horizontal ratio are not negative, the
    bitmap tick length lies between 0 and the bitmap total width, so the
    tick X coordinate lies between the outside and the inside edge. *)
Theorem tick_within_body_horizontally
  (this : PriceAxisViewRenderer) (scope : BitmapCoordinatesRenderingScope)
  (rendererOptions : PriceAxisViewRendererOptions)
  (textWidthCache : TextWidthCache) (align : Align) (closeButton : bool) :
  0 <= borderSize rendererOptions ->
  0 <= paddingInner rendererOptions ->
  0 <= paddingOuter rendererOptions ->
  0 <= tickLength rendererOptions ->
  0 <= measureText textWidthCache (context scope) (text (_data this)) ->
  0 <= horizontalPixelRatio scope ->
  let gb := bitmap (_calculateGeometry this scope rendererOptions
                      textWidthCache align closeButton) in
  match align with
  | AlignRight =>
      Bitmap.xOutside gb <= Bitmap.xTick gb
      /\ Bitmap.xTick gb <= Bitmap.xInside gb
  | AlignLeft =>
      Bitmap.xInside gb <= Bitmap.xTick gb
      /\ Bitmap.xTick gb <= Bitmap.xOutside gb
  end.
Proof.
  intros Hbs Hpi Hpo Htl Hm Hh gb.
  assert (Htick : 0 <= tickSize this rendererOptions).
  { unfold tickSize. destruct (_ || _); [exact Htl | lra]. }
  assert (Htext : 0 <= inject_Z (textWidth this scope textWidthCache)).
  { unfold textWidth, Math_ceil.
    destruct (truthy_opt (_iconColor this)); [discriminate|].
    apply Qle_trans with (1 := Hm). apply Qle_ceiling. }
  assert (Hle : tickSize this rendererOptions
                <= totalWidth this scope rendererOptions textWidthCache
                              closeButton).
  { unfold totalWidth.
    assert (Hc : 0 <= (if closeButton then inject_Z CLOSE_BUTTON_SIZE
                       else 0)).
    { destruct closeButton; discriminate. }
    lra. }
  assert (H0 : (0 <= tickSizeBitmap this scope rendererOptions)%Z).
  { apply Math_round_nonneg. now apply Qmult_le_0_compat. }
  assert (H1 : (tickSizeBitmap this scope rendererOptions
                <= totalWidthBitmap this scope rendererOptions
                                    textWidthCache closeButton)%Z).
  { apply Math_round_monotone. now apply Qmult_le_compat_r. }
  rewrite Zle_Qle in H0, H1. change (inject_Z 0) with 0 in H0.
  unfold gb, _calculateGeometry.
  destruct align;
    cbn [bitmap Bitmap.xInside Bitmap.xOutside Bitmap.xTick]; split; lra.
Qed.

Lemma tick_within_body_horizontally_witness :
  let gb := bitmap (_calculateGeometry (sampleRenderer "12.50" true true 0 0)
                      (sampleScope 2 2) sampleOptions sampleCache
                      AlignRight false) in
  Bitmap.xOutside gb <= Bitmap.xTick gb
  /\ Bitmap.xTick gb <= Bitmap.xInside gb.
Proof.
  apply (tick_within_body_horizontally
           (sampleRenderer "12.50" true true 0 0) (sampleScope 2 2)
           sampleOptions sampleCache AlignRight false);
    unfold Qle; simpl; lia.
Defined.

(** Vertically the tick lies inside the label body: for a vertical ratio
    of at least 1 and a logical height of at least 1, the tick is no taller
    than the label, starts at or below the label's top and ends at or above
    its bottom. *)
Theorem tick_within_body_vertically
  (this : PriceAxisViewRenderer) (scope : BitmapCoordinatesRenderingScope)
  (rendererOptions : PriceAxisViewRendererOptions)
  (textWidthCache : TextWidthCache) (align : Align) (closeButton : bool) :
  1 <= verticalPixelRatio scope ->
  1 <= totalHeight this rendererOptions ->
  let gb := bitmap (_calculateGeometry this scope rendererOptions
                      textWidthCache align closeButton) in
  (Bitmap.tickHeight gb <= Bitmap.totalHeight gb)%Z
  /\ (Bitmap.yTop gb <= Bitmap.yMid gb)%Z
  /\ (Bitmap.yMid gb + Bitmap.tickHeight gb <= Bitmap.yBottom gb)%Z.
Proof.
  intros Hr Hh gb.
  assert (Hh0 : 0 <= totalHeight this rendererOptions) by lra.
  pose proof (label_top_centres_tick this scope rendererOptions
                textWidthCache align closeButton Hr Hh0) as Hcentre.
  cbv zeta in Hcentre. fold gb in Hcentre.
  assert (Hfit : (Bitmap.tickHeight gb <= Bitmap.totalHeight gb)%Z).
  { change (Bitmap.tickHeight gb) with (tickHeightBitmap scope).
    change (Bitmap.totalHeight gb)
      with (totalHeightBitmap this scope rendererOptions).
    assert (Hfloor : (1 <= Qfloor (verticalPixelRatio scope))%Z).
    { change 1%Z with (Qfloor 1). now apply Qfloor_resp_le. }
    assert (Hround :
      (Qfloor (verticalPixelRatio scope)
       <= Math_round (totalHeight this rendererOptions
                      * verticalPixelRatio scope))%Z).
    { unfold Math_round. apply Qfloor_resp_le. nra. }
    unfold tickHeightBitmap, totalHeightBitmap, Math_max, Math_floor.
    destruct (negb _); lia. }
  change (Bitmap.yBottom gb) with (Bitmap.yTop gb + Bitmap.totalHeight gb)%Z.
  lia.
Qed.

Lemma tick_within_body_vertically_witness :
  let gb := bitmap (_calculateGeometry (sampleRenderer "12.50" true true 0 0)
                      (sampleScope (3 # 2) (3 # 2)) sampleOptions sampleCache
                      AlignLeft false) in
  (Bitmap.yTop gb <= Bitmap.yMid gb)%Z
  /\ (Bitmap.yMid gb + Bitmap.tickHeight gb <= Bitmap.yBottom gb)%Z.
Proof.
  apply (tick_within_body_vertically (sampleRenderer "12.50" true true 0 0)
           (sampleScope (3 # 2) (3 # 2)) sampleOptions sampleCache
           AlignLeft false);
    unfold Qle; simpl; lia.
Defined.
